(** * The code-block extraction pipeline of lib/extractors/extract_blocks.py

    A shallow embedding of the four stages of the pipeline (extraction of
    code blocks from pattern matches, grouping of exact duplicates,
    generation of consolidation suggestions, computation of the scan
    metrics) and the properties the specification states about them.

    Python integers are [Z]; Python floats are binary64 primitive floats;
    Python strings are [string]; the dictionary literal [category_map] is a
    [gmap string string]; the insertion-ordered dictionary [hash_groups] is
    an association list; raised exceptions are values of an error type.

    The stages are given twice. First on records that have the types of the
    input schema, where a key can only be present or absent and a block is
    the record of the values its constructor is given. Then on any JSON
    value [json.load] can return, with the checks of the constructors of
    the model classes: there a record can hold a value of any type, the
    [except] branch of the extractor can itself raise, and the dump of the
    report can fail. Grouping, suggestions and metrics are the same for
    both, and on records of the schema both extract the same blocks, up to
    the invariant of the class CodeBlock. *)

From Stdlib Require Import ZArith List String Ascii Lia Floats.PrimFloat.
From stdpp Require Import gmap strings list pretty.

Set Warnings "-inexact-float,-register-all".
Local Open Scope string_scope.
Local Open Scope Z_scope.

(** ** Python primitives used by the module *)

Module Py.

(** The exceptions the module's code can raise by itself, and [Other] for
    those of the runtime and of the libraries: their class name and the
    text [str] gives for them. *)
Inductive exn : Type :=
| KeyError (key : string)
| IndexError
| ZeroDivisionError
| Other (kind : string) (message : string).

Inductive result (A : Type) : Type :=
| Ok (a : A)
| Raise (e : exn).
Arguments Ok {A} a.
Arguments Raise {A} e.

Definition bind {A B : Type} (r : result A) (k : A -> result B) : result B :=
  match r with
  | Ok a => k a
  | Raise e => Raise e
  end.

(** [d[key]] on a record read from JSON: [KeyError] when the key is absent. *)
Definition getitem {A : Type} (key : string) (field : option A) : result A :=
  match field with
  | Some v => Ok v
  | None => Raise (KeyError key)
  end.

(** [d.get(key, dflt)]. *)
Definition get {A : Type} (field : option A) (dflt : A) : A :=
  match field with
  | Some v => v
  | None => dflt
  end.

(** [l.append(x)]. *)
Definition append {A : Type} (l : list A) (x : A) : list A := (l ++ [x])%list.

(** [l[0]]: [IndexError] on the empty list. *)
Definition first {A : Type} (l : list A) : result A :=
  match l with
  | x :: _ => Ok x
  | [] => Raise IndexError
  end.

(** [len(l)]. *)
Definition len {A : Type} (l : list A) : Z := Z.of_nat (length l).

(** [sum(...)] over integers. *)
Definition sum (l : list Z) : Z := fold_left Z.add l 0.

(** [str(n)] for an integer. *)
Definition str_int (n : Z) : string := pretty n.

(** [str(e)] for an exception: a [KeyError] prints the [repr] of its key. *)
Definition str_exn (e : exn) : string :=
  match e with
  | KeyError key => "'" +:+ key +:+ "'"
  | IndexError => "list index out of range"
  | Other _ message => message
  | ZeroDivisionError => "integer division or modulo by zero"
  end.

(** [s[:n]]. *)
Fixpoint slice_to (n : nat) (s : string) : string :=
  match n, s with
  | S n', String c s' => String c (slice_to n' s')
  | _, _ => EmptyString
  end.

(** [a // b] on integers: floor division, [ZeroDivisionError] on [b = 0]. *)
Definition floordiv (a b : Z) : result Z :=
  if b =? 0 then Raise ZeroDivisionError else Ok (a / b).

(** [min(a, b)] on floats: the first argument unless the second is smaller. *)
Definition min_float (a b : float) : float :=
  if PrimFloat.ltb b a then b else a.

(** A comprehension whose element expression can raise. *)
Fixpoint traverse {A B : Type} (f : A -> result B) (l : list A) : result (list B) :=
  match l with
  | [] => Ok []
  | x :: l' => bind (f x) (fun y => bind (traverse f l') (fun ys => Ok (y :: ys)))
  end.

End Py.

Import Py.

Notation "'let!' x ':=' c 'in' k" := (Py.bind c (fun x => k))
  (at level 10, x name, c at level 100, k at level 200).

(** ** Input records *)

(** One element of [pattern_matches]: a JSON object with the keys of the
    input schema, each of which may be absent. *)
Module PatternMatch.
Record t : Type := mk {
  rule_id : option string;
  file_path : option string;
  line_start : option Z;
  line_end : option Z;
  matched_text : option string
}.
End PatternMatch.

(** The [repository_info] object; only its key [path] is read. *)
Module RepositoryInfo.
Record t : Type := mk {
  path : option string
}.
End RepositoryInfo.

(** The document read from the standard input. *)
Module InputData.
Record t : Type := mk {
  repository_info : option RepositoryInfo.t;
  pattern_matches : option (list PatternMatch.t)
}.
End InputData.

(** ** The model classes

    Modelled from the spec: the class declarations of lib/models
    (code_block, duplicate_group, consolidation_suggestion, scan_report) are
    not part of the sources. Following the data model of the specification
    they are value records that hold the fields their constructor is given;
    the two derived properties the pipeline reads, [content_hash] of a block
    and [impact_score] of a group, are parameters of the development. What
    the constructors reject is modelled with the run on JSON documents
    ([new_SourceLocation], [new_CodeBlock]). *)

Module code_block.
Record SourceLocation : Type := mkSourceLocation {
  file_path : string;
  line_start : Z;
  line_end : Z
}.

Record CodeBlock : Type := mkCodeBlock {
  block_id : string;
  pattern_id : string;
  location : SourceLocation;
  relative_path : string;
  source_code : string;
  language : string;
  category : string;
  repository_path : string;
  line_count : Z
}.
End code_block.

Module duplicate_group.
Record DuplicateGroup : Type := mkDuplicateGroup {
  group_id : string;
  pattern_id : string;
  member_block_ids : list string;
  similarity_score : float;
  similarity_method : string;
  category : string;
  language : string;
  occurrence_count : Z;
  total_lines : Z;
  affected_files : list string;
  affected_repositories : list string
}.
End duplicate_group.

Module consolidation_suggestion.
Record ConsolidationSuggestion : Type := mkConsolidationSuggestion {
  suggestion_id : string;
  duplicate_group_id : string;
  strategy : string;
  strategy_rationale : string;
  impact_score : float;
  complexity : string;
  migration_risk : string;
  breaking_changes : bool;
  affected_files_count : Z;
  affected_repositories_count : Z;
  confidence : float
}.
End consolidation_suggestion.

Import code_block duplicate_group consolidation_suggestion.

(** The [metrics] dictionary built by [main]. *)
Module ScanMetrics.
Record t : Type := mk {
  total_code_blocks : Z;
  total_duplicate_groups : Z;
  exact_duplicates : Z;
  structural_duplicates : Z;
  semantic_duplicates : Z;
  total_duplicated_lines : Z;
  potential_loc_reduction : Z;
  duplication_percentage : float;
  total_suggestions : Z;
  quick_wins : Z;
  high_priority_suggestions : Z
}.
End ScanMetrics.

(** The [result] dictionary written to the standard output. *)
Module Report.
Record t : Type := mk {
  code_blocks : list CodeBlock;
  duplicate_groups : list DuplicateGroup;
  suggestions : list ConsolidationSuggestion;
  metrics : ScanMetrics.t
}.
End Report.

(** What a run of [main] leaves behind. *)
Module Process.
Record t : Type := mk {
  stdout : option Report.t;
  stderr : list string;
  exit_code : Z
}.
End Process.

(** ** extract_code_blocks *)

(** The dictionary literal of the loop body. *)
Definition category_map : gmap string string :=
  list_to_map
    [ ("object-manipulation", "utility");
      ("array-map-filter", "utility");
      ("string-manipulation", "utility");
      ("type-checking", "utility");
      ("validation", "validator");
      ("express-route-handlers", "api_handler");
      ("auth-checks", "auth_check");
      ("error-responses", "error_handler");
      ("request-validation", "validator");
      ("prisma-operations", "database_operation");
      ("query-builders", "database_operation");
      ("connection-handling", "database_operation");
      ("await-patterns", "async_pattern");
      ("promise-chains", "async_pattern");
      ("env-variables", "config_access");
      ("config-objects", "config_access");
      ("console-statements", "logger");
      ("logger-patterns", "logger") ].

(** [category_map.get(rule_id, 'utility')]. *)
Definition category_of (rule_id : string) : string :=
  default "utility" (category_map !! rule_id).

(** The line written to the error stream by the [except] branch (the
    traceback that follows it is not modelled). *)
Definition warning (i : Z) (m : PatternMatch.t) (e : exn) : string :=
  "Warning: Failed to extract block " +:+ str_int i +:+ " from "
    +:+ get (PatternMatch.file_path m) "unknown" +:+ ": " +:+ str_exn e.

(** ** JSON documents

    A value as [json.load] returns it: [None], a bool, an int, a float, a
    str, a list or a dict. A dict is the list of its items, in which a key
    occurs once. *)
Inductive json : Type :=
| JNull
| JBool (b : bool)
| JInt (n : Z)
| JFloat (x : float)
| JStr (s : string)
| JList (elements : list json)
| JDict (items : list (string * json)).

Module Json.

(** [type(v).__name__]. *)
Definition type_name (v : json) : string :=
  match v with
  | JNull => "NoneType"
  | JBool _ => "bool"
  | JInt _ => "int"
  | JFloat _ => "float"
  | JStr _ => "str"
  | JList _ => "list"
  | JDict _ => "dict"
  end.

Definition is_dict (v : json) : bool :=
  match v with
  | JDict _ => true
  | _ => false
  end.

(** The value stored under [key] in the items of a dict. *)
Fixpoint lookup (key : string) (items : list (string * json)) : option json :=
  match items with
  | [] => None
  | (k, v) :: items' => if String.eqb k key then Some v else lookup key items'
  end.

(** [v[key]] for a string [key]: defined on a dict that has the key. *)
Definition subscript (v : json) (key : string) : result json :=
  match v with
  | JDict items =>
      match lookup key items with
      | Some x => Ok x
      | None => Raise (KeyError key)
      end
  | JList _ =>
      Raise (Other "TypeError" "list indices must be integers or slices, not str")
  | JStr _ =>
      Raise (Other "TypeError" "string indices must be integers, not 'str'")
  | _ =>
      Raise (Other "TypeError"
               ("'" +:+ type_name v +:+ "' object is not subscriptable"))
  end.

(** [v.get(key, dflt)]: only a dict has the method. *)
Definition get (v : json) (key : string) (dflt : json) : result json :=
  match v with
  | JDict items =>
      match lookup key items with
      | Some x => Ok x
      | None => Ok dflt
      end
  | _ =>
      Raise (Other "AttributeError"
               ("'" +:+ type_name v +:+ "' object has no attribute 'get'"))
  end.

(** The elements a [for] loop over [v] visits: those of a list, the keys of
    a dict, the characters of a str. *)
Definition iterate (v : json) : result (list json) :=
  match v with
  | JList elements => Ok elements
  | JDict items => Ok (map (fun item => JStr (fst item)) items)
  | JStr s =>
      Ok (map (fun c => JStr (String c EmptyString)) (list_ascii_of_string s))
  | _ =>
      Raise (Other "TypeError"
               ("'" +:+ type_name v +:+ "' object is not iterable"))
  end.

End Json.

(** What a run on a document leaves behind: the text written to the
    standard output, if any, the lines of the error stream, the exit code. *)
Module Run.
Record t : Type := mk {
  stdout : option string;
  stderr : list string;
  exit_code : Z
}.
End Run.

(** ** Notions used to state the properties *)

(** A match record that has the three required keys. *)
Definition well_formed (m : PatternMatch.t) : bool :=
  match PatternMatch.rule_id m, PatternMatch.file_path m, PatternMatch.line_start m with
  | Some _, Some _, Some _ => true
  | _, _, _ => false
  end.

(** [enumerate(l)], counting from [i]. *)
Fixpoint enumerate_from {A : Type} (i : Z) (l : list A) : list (Z * A) :=
  match l with
  | [] => []
  | x :: l' => (i, x) :: enumerate_from (i + 1) l'
  end.

(** The summand of [potential_loc_reduction] for a group whose occurrence
    count is not zero. *)
Definition loc_saving (g : DuplicateGroup) : Z :=
  total_lines g - total_lines g / occurrence_count g.

(** ** Sample inputs

    The inputs at which the properties below are instantiated. The three
    functions stand for the digest, for [content_hash] and for
    [impact_score]; the properties hold for every choice of them. *)
Module Sample.

Definition digest (s : string) : string := s.
Definition content_hash (block : CodeBlock) : string := source_code block.
Definition impact_score (_ : DuplicateGroup) : float := 80.0%float.

Definition repository : RepositoryInfo.t := RepositoryInfo.mk (Some "/repo").

(** The end-to-end scenario of the specification: the same text in a.js
    and in b.js, another text in c.js. *)
Definition match_a : PatternMatch.t :=
  PatternMatch.mk (Some "validation") (Some "a.js") (Some 10) None
    (Some "if (x) return null;").
Definition match_b : PatternMatch.t :=
  PatternMatch.mk (Some "validation") (Some "b.js") (Some 22) None
    (Some "if (x) return null;").
Definition match_c : PatternMatch.t :=
  PatternMatch.mk (Some "my-own-rule") (Some "c.js") (Some 5) (Some 6)
    (Some "const y = 1;").
Definition scenario : InputData.t :=
  InputData.mk (Some repository) (Some [match_a; match_b; match_c]).

(** A record whose line_end lies before its line_start. *)
Definition reversed_a : PatternMatch.t :=
  PatternMatch.mk (Some "validation") (Some "a.js") (Some 10) (Some 3)
    (Some "if (x) return null;").

End Sample.

(** The entries of the dictionary literal [category_map], in source order. *)
Definition category_table : list (string * string) :=
  [ ("object-manipulation", "utility");
    ("array-map-filter", "utility");
    ("string-manipulation", "utility");
    ("type-checking", "utility");
    ("validation", "validator");
    ("express-route-handlers", "api_handler");
    ("auth-checks", "auth_check");
    ("error-responses", "error_handler");
    ("request-validation", "validator");
    ("prisma-operations", "database_operation");
    ("query-builders", "database_operation");
    ("connection-handling", "database_operation");
    ("await-patterns", "async_pattern");
    ("promise-chains", "async_pattern");
    ("env-variables", "config_access");
    ("config-objects", "config_access");
    ("console-statements", "logger");
    ("logger-patterns", "logger") ].

(** The categories the table can yield. *)
Definition categories : list string :=
  [ "utility"; "validator"; "api_handler"; "auth_check"; "error_handler";
    "database_operation"; "async_pattern"; "config_access"; "logger" ].

(** The keys of an association list in order of first appearance, as an
    insertion-ordered dictionary keeps them. *)
Fixpoint first_occurrences (seen keys : list string) : list string :=
  match keys with
  | [] => []
  | k :: keys' =>
      if in_dec string_dec k seen then first_occurrences seen keys'
      else k :: first_occurrences (k :: seen) keys'
  end.

(** Further inputs at which properties are instantiated. *)
Module Edge.

(** A repository descriptor without the key path. *)
Definition no_path : RepositoryInfo.t := RepositoryInfo.mk None.


(** A record without file_path. *)
Definition no_file_path : PatternMatch.t :=
  PatternMatch.mk (Some "validation") None (Some 7) None (Some "x").

(** Records with pairwise distinct texts. *)
Definition distinct : InputData.t :=
  InputData.mk (Some Sample.repository) (Some [Sample.match_a; Sample.match_c]).

End Edge.

(** Documents at which the properties of the run on JSON input are
    instantiated, and stand-ins for the five library behaviours it is
    parameterised by. *)
Module Doc.

Definition encode_error (_ : string) : option string := None.
Definition py_repr (_ : json) : string := "...".
Definition validation_error (class : string) : string :=
  "1 validation error for " +:+ class.
Definition print_exc (_ : exn) : list string :=
  ["Traceback (most recent call last):"].
Definition json_dump (_ : Report.t) : result string := Ok "{}".

Definition repository : json := JDict [("path", JStr "/repo")].

Definition record_a : json :=
  JDict [("rule_id", JStr "validation"); ("file_path", JStr "a.js");
         ("line_start", JInt 10); ("matched_text", JStr "if (x) return null;")].
Definition record_b : json :=
  JDict [("rule_id", JStr "validation"); ("file_path", JStr "b.js");
         ("line_start", JInt 22); ("matched_text", JStr "if (x) return null;")].
Definition record_c : json :=
  JDict [("rule_id", JStr "my-own-rule"); ("file_path", JStr "c.js");
         ("line_start", JInt 5); ("line_end", JInt 6);
         ("matched_text", JStr "const y = 1;")].

(** The three required keys, and a line_end that is null. *)
Definition null_line_end : json :=
  JDict [("rule_id", JStr "validation"); ("file_path", JStr "d.js");
         ("line_start", JInt 10); ("line_end", JNull)].

(** No line_start. *)
Definition no_line_start : json :=
  JDict [("rule_id", JStr "validation"); ("file_path", JStr "e.js")].

Definition scenario : json :=
  JDict [("repository_info", repository);
         ("pattern_matches", JList [record_a; record_b; record_c])].

(** A list of records one of whose elements is a number. *)
Definition with_number : json :=
  JDict [("repository_info", repository);
         ("pattern_matches", JList [record_a; JInt 5; record_b])].

End Doc.

Section Pipeline.

Set Default Proof Using "Type".

(** [hashlib.sha256(s.encode()).hexdigest()]. *)
Variable sha256_hexdigest : string -> string.

(** The property [content_hash] of the class CodeBlock. *)
Variable content_hash : CodeBlock -> string.

(** The property [impact_score] of the class DuplicateGroup. *)
Variable group_impact_score : DuplicateGroup -> float.

(** The body of the [try] block: the block built from one match. The
    subscripts are evaluated in the order of the source. *)
Definition extract_block (m : PatternMatch.t) (repository_info : RepositoryInfo.t)
  : result CodeBlock :=
  let! fp := getitem "file_path" (PatternMatch.file_path m) in
  let! ls := getitem "line_start" (PatternMatch.line_start m) in
  let block_id :=
    "cb_" +:+ slice_to 12 (sha256_hexdigest (fp +:+ ":" +:+ str_int ls)) in
  let! rid := getitem "rule_id" (PatternMatch.rule_id m) in
  let category := category_of rid in
  let location :=
    mkSourceLocation fp ls (get (PatternMatch.line_end m) ls) in
  let! repo := getitem "path" (RepositoryInfo.path repository_info) in
  Ok (mkCodeBlock
        block_id
        rid
        location
        fp
        (get (PatternMatch.matched_text m) "")
        "javascript"
        category
        repo
        (get (PatternMatch.line_end m) ls - ls + 1)).

(** The [for i, match in enumerate(...)] loop, from index [i] on, with the
    list [blocks] and the error stream as they stand. *)
Fixpoint extract_loop (i : Z) (ms : list PatternMatch.t)
    (repository_info : RepositoryInfo.t)
    (blocks : list CodeBlock) (err : list string)
  : list CodeBlock * list string :=
  match ms with
  | [] => (blocks, err)
  | m :: ms' =>
      match extract_block m repository_info with
      | Ok block => extract_loop (i + 1) ms' repository_info (append blocks block) err
      | Raise e => extract_loop (i + 1) ms' repository_info blocks (append err (warning i m e))
      end
  end.

Definition extract_code_blocks (pattern_matches : list PatternMatch.t)
    (repository_info : RepositoryInfo.t) : list CodeBlock * list string :=
  extract_loop 0 pattern_matches repository_info [] [].

(** ** group_duplicates *)

(** [hash_groups[h].append(block)], after the entry for [h] was created
    at the end of the dictionary when [h] was not a key of it. *)
Fixpoint hash_groups_append (hash_groups : list (string * list CodeBlock))
    (h : string) (block : CodeBlock) : list (string * list CodeBlock) :=
  match hash_groups with
  | [] => [(h, [block])]
  | (k, group_blocks) :: rest =>
      if String.eqb k h then (k, append group_blocks block) :: rest
      else (k, group_blocks) :: hash_groups_append rest h block
  end.

(** The first loop: the dictionary [hash_groups] once all blocks are in. *)
Definition build_hash_groups (blocks : list CodeBlock)
  : list (string * list CodeBlock) :=
  fold_left (fun hash_groups block =>
               hash_groups_append hash_groups (content_hash block) block)
            blocks [].

(** [list(set(b.location.file_path for b in group_blocks))]; the order of
    the list is that of the set, which Python leaves unspecified. *)
Definition affected_files_of (group_blocks : list CodeBlock) : list string :=
  elements (list_to_set (C := gset string)
              (map (fun b => file_path (location b)) group_blocks)).

(** The constructor call of the second loop. *)
Definition make_group (h : string) (group_blocks : list CodeBlock)
  : result DuplicateGroup :=
  let! b0 := first group_blocks in
  Ok (mkDuplicateGroup
        ("dg_" +:+ slice_to 12 h)
        (code_block.pattern_id b0)
        (map block_id group_blocks)
        1.0%float
        "exact_match"
        (code_block.category b0)
        (code_block.language b0)
        (len group_blocks)
        (sum (map line_count group_blocks))
        (affected_files_of group_blocks)
        [repository_path b0]).

(** The second loop, over [hash_groups.items()] in insertion order. *)
Fixpoint group_loop (items : list (string * list CodeBlock))
    (groups : list DuplicateGroup) : result (list DuplicateGroup) :=
  match items with
  | [] => Ok groups
  | (h, group_blocks) :: rest =>
      if 2 <=? len group_blocks then
        let! group := make_group h group_blocks in
        group_loop rest (append groups group)
      else group_loop rest groups
  end.

Definition group_duplicates (blocks : list CodeBlock)
  : result (list DuplicateGroup) :=
  group_loop (build_hash_groups blocks) [].

(** ** generate_suggestions *)

(** The [if]/[elif]/[else] on the occurrence count. *)
Definition strategy_of (occurrence_count : Z) : string :=
  if occurrence_count <=? 3 then "local_util"
  else if occurrence_count <=? 10 then "shared_package"
  else "mcp_server".

(** [0.9 if similarity_score >= 0.95 else 0.7]. *)
Definition confidence_of (similarity_score : float) : float :=
  if PrimFloat.leb 0.95%float similarity_score then 0.9%float else 0.7%float.

(** The suggestion built for one group. *)
Definition make_suggestion (group : DuplicateGroup) : ConsolidationSuggestion :=
  mkConsolidationSuggestion
    ("cs_" +:+ group_id group)
    (group_id group)
    (strategy_of (occurrence_count group))
    ("Found " +:+ str_int (occurrence_count group) +:+ " occurrences in "
       +:+ str_int (len (affected_files group)) +:+ " files")
    (min_float (group_impact_score group) 100.0%float)
    "simple"
    "low"
    false
    (len (affected_files group))
    (len (affected_repositories group))
    (confidence_of (similarity_score group)).

Definition generate_suggestions (groups : list DuplicateGroup)
  : list ConsolidationSuggestion :=
  fold_left (fun suggestions group => append suggestions (make_suggestion group))
            groups [].

(** ** main *)

(** One summand of [potential_loc_reduction]. *)
Definition loc_reduction (g : DuplicateGroup) : result Z :=
  let! per_instance := floordiv (total_lines g) (occurrence_count g) in
  Ok (total_lines g - per_instance).

(** The dictionary [metrics] (stage 7). *)
Definition calculate_metrics (blocks : list CodeBlock)
    (groups : list DuplicateGroup) (suggestions : list ConsolidationSuggestion)
  : result ScanMetrics.t :=
  let! reductions := traverse loc_reduction groups in
  Ok (ScanMetrics.mk
        (len blocks)
        (len groups)
        (len (List.filter (fun g => String.eqb (similarity_method g) "exact") groups))
        0
        0
        (sum (map total_lines groups))
        (sum reductions)
        0.0%float
        (len suggestions)
        (len (List.filter (fun s => String.eqb (complexity s) "trivial") suggestions))
        (len (List.filter (fun s => PrimFloat.leb 75%float (impact_score s)) suggestions))).

(** Stages 5 to 7 and the assembly of the report, from the blocks on. *)
Definition analyse (blocks : list CodeBlock) : result Report.t :=
  let! groups := group_duplicates blocks in
  let suggestions := generate_suggestions groups in
  let! metrics := calculate_metrics blocks groups suggestions in
  Ok (Report.mk blocks groups suggestions metrics).

(** The body of the [try] of [main]: the error stream as the extractor
    left it, and the report or the exception that ended the run. *)
Definition run (input_data : InputData.t) : list string * result Report.t :=
  match getitem "repository_info" (InputData.repository_info input_data) with
  | Raise e => ([], Raise e)
  | Ok repository_info =>
      match getitem "pattern_matches" (InputData.pattern_matches input_data) with
      | Raise e => ([], Raise e)
      | Ok pattern_matches =>
          let (blocks, err) := extract_code_blocks pattern_matches repository_info in
          (err, analyse blocks)
      end
  end.

Definition main (input_data : InputData.t) : Process.t :=
  match run input_data with
  | (err, Ok report) => Process.mk (Some report) err 0
  | (err, Raise e) =>
      Process.mk None (append err ("Error in extraction pipeline: " +:+ str_exn e)) 1
  end.

(** ** The run on a JSON document

    The same functions on what [json.load] can return: a record, the
    repository descriptor and the document are arbitrary JSON values, and
    the constructors of the model classes check what they are given. *)

(** The message of the [UnicodeEncodeError] that [s.encode()] raises, if it
    raises (a str with a lone surrogate cannot be encoded). *)
Variable encode_error : string -> option string.

(** [str(v)] for a float, a list or a dict. *)
Variable py_repr : json -> string.

(** The text of the error a model class raises when it rejects its
    arguments, by class name. *)
Variable validation_error : string -> string.

(** The lines [traceback.print_exc] writes for an exception. *)
Variable print_exc : exn -> list string.

(** The text [json.dump] writes for the result dictionary, the
    [model_dump] of its elements included, or the exception they raise. *)
Variable json_dump : Report.t -> result string.

(** [str(v)], as a replacement field of an f-string formats [v]. *)
Definition py_str (v : json) : string :=
  match v with
  | JStr s => s
  | JInt n => str_int n
  | JNull => "None"
  | JBool true => "True"
  | JBool false => "False"
  | _ => py_repr v
  end.

(** [s.encode()], of which only success or failure matters. *)
Definition encode (s : string) : result string :=
  match encode_error s with
  | Some message => Raise (Other "UnicodeEncodeError" message)
  | None => Ok s
  end.

(** [category_map.get(rule_id, 'utility')] for any value of [rule_id]: a
    list or a dict cannot be hashed, any other value that is not a str is
    no key of the table. *)
Definition json_category (rule_id : json) : result string :=
  match rule_id with
  | JStr s => Ok (category_of s)
  | JList _ => Raise (Other "TypeError" "unhashable type: 'list'")
  | JDict _ => Raise (Other "TypeError" "unhashable type: 'dict'")
  | _ => Ok "utility"
  end.

(** [line_end - line_start + 1] on the values of a record. The operands
    that reach this expression are integers: the constructor of the
    location, which is called first, has accepted them. *)
Definition json_line_count (line_end line_start : json) : result Z :=
  match line_end, line_start with
  | JInt le, JInt ls => Ok (le - ls + 1)
  | _, _ =>
      Raise (Other "TypeError"
               ("unsupported operand type(s) for -: '" +:+ Json.type_name line_end
                  +:+ "' and '" +:+ Json.type_name line_start +:+ "'"))
  end.

(** Modelled from the spec: the constructor of the class SourceLocation,
    whose declaration is not part of the sources. The data model gives a
    location a file path and two line numbers; a value of another type is
    the type mismatch of the failure policy, and the constructor raises. *)
Definition new_SourceLocation (file_path line_start line_end : json)
  : result SourceLocation :=
  match file_path, line_start, line_end with
  | JStr fp, JInt ls, JInt le => Ok (mkSourceLocation fp ls le)
  | _, _, _ =>
      Raise (Other "ValidationError" (validation_error "SourceLocation"))
  end.

(** Modelled from the spec: the constructor of the class CodeBlock, whose
    declaration is not part of the sources. The pattern, the paths and the
    source text are strings, and the class keeps its invariant
    line_count >= 1: the constructor raises on a value of another type and
    on a smaller line count. *)
Definition new_CodeBlock (block_id : string) (pattern_id : json)
    (location : SourceLocation) (relative_path source_code : json)
    (language category : string) (repository_path : json) (line_count : Z)
  : result CodeBlock :=
  match pattern_id, relative_path, source_code, repository_path with
  | JStr pattern, JStr path, JStr text, JStr repo =>
      if 1 <=? line_count then
        Ok (mkCodeBlock block_id pattern location path text language category
              repo line_count)
      else Raise (Other "ValidationError" (validation_error "CodeBlock"))
  | _, _, _, _ =>
      Raise (Other "ValidationError" (validation_error "CodeBlock"))
  end.

(** The body of the [try] block on a JSON record, its subscripts, method
    calls and constructor calls in the order of the source. *)
Definition json_extract_block (m repository_info : json) : result CodeBlock :=
  let! fp := Json.subscript m "file_path" in
  let! ls := Json.subscript m "line_start" in
  let! encoded := encode (py_str fp +:+ ":" +:+ py_str ls) in
  let block_id := "cb_" +:+ slice_to 12 (sha256_hexdigest encoded) in
  let! rid := Json.subscript m "rule_id" in
  let! category := json_category rid in
  let! le := Json.get m "line_end" ls in
  let! location := new_SourceLocation fp ls le in
  let! text := Json.get m "matched_text" (JStr "") in
  let! repo := Json.subscript repository_info "path" in
  let! line_count := json_line_count le ls in
  new_CodeBlock block_id rid location fp text "javascript" category repo
    line_count.

(** The first line the [except] branch writes for the record at index [i],
    once [match.get('file_path', 'unknown')] has returned [v]. *)
Definition json_warning (i : Z) (v : json) (e : exn) : string :=
  "Warning: Failed to extract block " +:+ str_int i +:+ " from "
    +:+ py_str v +:+ ": " +:+ str_exn e.

(** The loop over the records from index [i] on. The [except] branch calls
    [match.get], which raises on a record that is not a dict: that
    exception leaves the function, with what was written so far. *)
Fixpoint json_extract_loop (i : Z) (ms : list json) (repository_info : json)
    (blocks : list CodeBlock) (err : list string)
  : list string * result (list CodeBlock) :=
  match ms with
  | [] => (err, Ok blocks)
  | m :: ms' =>
      match json_extract_block m repository_info with
      | Ok block =>
          json_extract_loop (i + 1) ms' repository_info (append blocks block) err
      | Raise e =>
          match Json.get m "file_path" (JStr "unknown") with
          | Ok v =>
              json_extract_loop (i + 1) ms' repository_info blocks
                (err ++ json_warning i v e :: print_exc e)%list
          | Raise e' => (err, Raise e')
          end
      end
  end.

(** [extract_code_blocks] on JSON values: the error stream, and the blocks
    or the exception that left the function. *)
Definition json_extract_code_blocks (pattern_matches repository_info : json)
  : list string * result (list CodeBlock) :=
  match Json.iterate pattern_matches with
  | Raise e => ([], Raise e)
  | Ok ms => json_extract_loop 0 ms repository_info [] []
  end.

(** The body of the [try] of [main], from the outcome of
    [json.load(sys.stdin)] to the text written by [json.dump]. *)
Definition json_run (loaded : result json) : list string * result string :=
  match loaded with
  | Raise e => ([], Raise e)
  | Ok input_data =>
      match Json.subscript input_data "repository_info" with
      | Raise e => ([], Raise e)
      | Ok repository_info =>
          match Json.subscript input_data "pattern_matches" with
          | Raise e => ([], Raise e)
          | Ok pattern_matches =>
              let (err, extracted) :=
                json_extract_code_blocks pattern_matches repository_info in
              (err,
               let! blocks := extracted in
               let! report := analyse blocks in
               json_dump report)
          end
      end
  end.

(** [main] on the outcome of [json.load(sys.stdin)]. *)
Definition json_main (loaded : result json) : Run.t :=
  match json_run loaded with
  | (err, Ok text) => Run.mk (Some text) err 0
  | (err, Raise e) =>
      Run.mk None
        (err ++ ("Error in extraction pipeline: " +:+ str_exn e) :: print_exc e)%list
        1
  end.

(** A record from which a block is built, given a repository descriptor
    whose path is a string. *)
Definition conforming (m : json) : bool :=
  match m with
  | JDict items =>
      match Json.lookup "file_path" items, Json.lookup "line_start" items,
            Json.lookup "rule_id" items with
      | Some (JStr fp), Some (JInt ls), Some (JStr _) =>
          match encode_error (fp +:+ ":" +:+ str_int ls) with
          | Some _ => false
          | None =>
              match Json.lookup "line_end" items with
              | None => true
              | Some (JInt le) => ls <=? le
              | Some _ => false
              end
              && match Json.lookup "matched_text" items with
                 | None | Some (JStr _) => true
                 | Some _ => false
                 end
          end
      | _, _, _ => false
      end
  | _ => false
  end.

(** The blocks the loop on JSON records appends for [ms], in order. *)
Fixpoint json_kept (ms : list json) (repository_info : json) : list CodeBlock :=
  match ms with
  | [] => []
  | m :: ms' =>
      match json_extract_block m repository_info with
      | Ok block => block :: json_kept ms' repository_info
      | Raise _ => json_kept ms' repository_info
      end
  end.

(** What [match.get('file_path', 'unknown')] returns for a dict. *)
Definition file_path_or_unknown (m : json) : json :=
  match Json.get m "file_path" (JStr "unknown") with
  | Ok v => v
  | Raise _ => JStr "unknown"
  end.

(** The lines the loop on JSON records writes for each of the dicts [ms]
    that fails, the first of which has index [i]: one chunk, the warning
    and the traceback, per failing record. *)
Fixpoint json_skipped (i : Z) (ms : list json) (repository_info : json)
  : list (list string) :=
  match ms with
  | [] => []
  | m :: ms' =>
      match json_extract_block m repository_info with
      | Ok _ => json_skipped (i + 1) ms' repository_info
      | Raise e =>
          (json_warning i (file_path_or_unknown m) e :: print_exc e)
            :: json_skipped (i + 1) ms' repository_info
      end
  end.

(** A typed record as the JSON object that has its keys. *)
Definition record_json (m : PatternMatch.t) : json :=
  JDict
    (match PatternMatch.rule_id m with
     | Some rid => [("rule_id", JStr rid)]
     | None => []
     end
     ++ match PatternMatch.file_path m with
        | Some fp => [("file_path", JStr fp)]
        | None => []
        end
     ++ match PatternMatch.line_start m with
        | Some ls => [("line_start", JInt ls)]
        | None => []
        end
     ++ match PatternMatch.line_end m with
        | Some le => [("line_end", JInt le)]
        | None => []
        end
     ++ match PatternMatch.matched_text m with
        | Some text => [("matched_text", JStr text)]
        | None => []
        end)%list.

(** A typed repository descriptor as a JSON object. *)
Definition repository_json (repository_info : RepositoryInfo.t) : json :=
  JDict
    match RepositoryInfo.path repository_info with
    | Some p => [("path", JStr p)]
    | None => []
    end.

(** ** What the extraction loop computes *)

(** The blocks the loop appends for the matches [ms], in order. *)
Fixpoint kept (ms : list PatternMatch.t) (repository_info : RepositoryInfo.t)
  : list CodeBlock :=
  match ms with
  | [] => []
  | m :: ms' =>
      match extract_block m repository_info with
      | Ok block => block :: kept ms' repository_info
      | Raise _ => kept ms' repository_info
      end
  end.

(** The warnings the loop writes for the matches [ms], the first of which
    has index [i]. *)
Fixpoint skipped (i : Z) (ms : list PatternMatch.t)
    (repository_info : RepositoryInfo.t) : list string :=
  match ms with
  | [] => []
  | m :: ms' =>
      match extract_block m repository_info with
      | Ok _ => skipped (i + 1) ms' repository_info
      | Raise e => warning i m e :: skipped (i + 1) ms' repository_info
      end
  end.

(** Whether the content hash of [block] is [h]: the blocks of a bucket are
    those of the input that pass this test for the bucket's key. *)
Definition has_hash (h : string) (block : CodeBlock) : bool :=
  String.eqb (content_hash block) h.

(** ** Properties of the extractor *)

Lemma extract_block_Ok_inv m repository_info block :
  extract_block m repository_info = Ok block ->
  exists fp ls rid repo,
    PatternMatch.file_path m = Some fp /\
    PatternMatch.line_start m = Some ls /\
    PatternMatch.rule_id m = Some rid /\
    RepositoryInfo.path repository_info = Some repo /\
    block =
      mkCodeBlock
        ("cb_" +:+ slice_to 12 (sha256_hexdigest (fp +:+ ":" +:+ str_int ls)))
        rid
        (mkSourceLocation fp ls (get (PatternMatch.line_end m) ls))
        fp
        (get (PatternMatch.matched_text m) "")
        "javascript"
        (category_of rid)
        repo
        (get (PatternMatch.line_end m) ls - ls + 1).
Proof.
  unfold extract_block.
  destruct (PatternMatch.file_path m) as [fp|]; simpl; [|discriminate].
  destruct (PatternMatch.line_start m) as [ls|]; simpl; [|discriminate].
  destruct (PatternMatch.rule_id m) as [rid|]; simpl; [|discriminate].
  destruct (RepositoryInfo.path repository_info) as [repo|]; simpl; [|discriminate].
  intros [= <-]. exists fp, ls, rid, repo. repeat split; reflexivity.
Qed.

Lemma extract_block_well_formed m repository_info repo :
  RepositoryInfo.path repository_info = Some repo ->
  well_formed m = true ->
  exists block, extract_block m repository_info = Ok block.
Proof.
  intros Hrepo. unfold well_formed, extract_block. rewrite Hrepo.
  destruct (PatternMatch.rule_id m), (PatternMatch.file_path m),
    (PatternMatch.line_start m); simpl; intros; try discriminate; eauto.
Qed.

Lemma extract_block_malformed m repository_info :
  well_formed m = false ->
  exists key,
    In key ["file_path"; "line_start"; "rule_id"] /\
    extract_block m repository_info = Raise (KeyError key).
Proof.
  unfold well_formed, extract_block.
  destruct (PatternMatch.file_path m); simpl;
    [| intros _; exists "file_path"; simpl; auto].
  destruct (PatternMatch.line_start m); simpl;
    [| intros _; exists "line_start"; simpl; auto].
  destruct (PatternMatch.rule_id m); simpl;
    [discriminate | intros _; exists "rule_id"; simpl; auto].
Qed.

Lemma extract_loop_eq ms repository_info : forall i blocks err,
  extract_loop i ms repository_info blocks err =
  ((blocks ++ kept ms repository_info)%list,
   (err ++ skipped i ms repository_info)%list).
Proof.
  induction ms as [|m ms IH]; intros i blocks err; simpl.
  - now rewrite !app_nil_r.
  - destruct (extract_block m repository_info) as [block|e];
      rewrite IH; unfold append; now rewrite <- app_assoc.
Qed.

Lemma extract_code_blocks_eq pattern_matches repository_info :
  extract_code_blocks pattern_matches repository_info =
  (kept pattern_matches repository_info, skipped 0 pattern_matches repository_info).
Proof. unfold extract_code_blocks. now rewrite extract_loop_eq. Qed.

Lemma kept_In ms repository_info block :
  In block (kept ms repository_info) ->
  exists m, In m ms /\ extract_block m repository_info = Ok block.
Proof.
  induction ms as [|m ms IH]; simpl; [intros []|].
  destruct (extract_block m repository_info) as [b|e] eqn:E.
  - intros [<- | H]; [eauto|]. destruct (IH H) as (m' & ? & ?); eauto.
  - intros H. destruct (IH H) as (m' & ? & ?); eauto.
Qed.

Lemma kept_well_formed ms repository_info repo :
  RepositoryInfo.path repository_info = Some repo ->
  Forall2 (fun m block => extract_block m repository_info = Ok block)
    (List.filter well_formed ms) (kept ms repository_info).
Proof.
  intros Hrepo. induction ms as [|m ms IH]; simpl; [constructor|].
  destruct (well_formed m) eqn:W.
  - destruct (extract_block_well_formed m _ _ Hrepo W) as [b E].
    rewrite E. now constructor.
  - destruct (extract_block_malformed m repository_info W) as (key & _ & E).
    now rewrite E.
Qed.

Lemma skipped_malformed ms repository_info repo :
  RepositoryInfo.path repository_info = Some repo ->
  forall i,
  Forall2 (fun im line =>
             exists key,
               In key ["file_path"; "line_start"; "rule_id"] /\
               extract_block (snd im) repository_info = Raise (KeyError key) /\
               line = warning (fst im) (snd im) (KeyError key))
    (List.filter (fun im => negb (well_formed (snd im))) (enumerate_from i ms))
    (skipped i ms repository_info).
Proof.
  intros Hrepo. induction ms as [|m ms IH]; intros i; simpl; [constructor|].
  destruct (well_formed m) eqn:W; simpl.
  - destruct (extract_block_well_formed m _ _ Hrepo W) as [b E].
    rewrite E. apply IH.
  - destruct (extract_block_malformed m repository_info W) as (key & Hkey & E).
    rewrite E. constructor; [|apply IH]. exists key; auto.
Qed.

(** ** Properties of the grouper *)

Lemma filter_none {A : Type} (f : A -> bool) (l : list A) :
  (forall x, In x l -> f x = false) -> List.filter f l = [].
Proof.
  induction l as [|x l IH]; simpl; [reflexivity|].
  intros H. rewrite (H x) by now left. apply IH. intros; apply H. now right.
Qed.

Lemma Forall2_In_r {A B : Type} (R : A -> B -> Prop) l1 l2 y :
  Forall2 R l1 l2 -> In y l2 -> exists x, In x l1 /\ R x y.
Proof.
  induction 1 as [|a b l1 l2 HR _ IH]; simpl; [intros []|].
  intros [<- | H]; [eauto|]. destruct (IH H) as (x & ? & ?); eauto.
Qed.

Lemma hash_groups_append_new d h block :
  ~ In h (map fst d) ->
  hash_groups_append d h block = (d ++ [(h, [block])])%list.
Proof.
  induction d as [|[k bs] d IH]; simpl; [reflexivity|].
  intros Hnot. destruct (String.eqb_spec k h) as [->|Hne].
  - exfalso. apply Hnot. now left.
  - rewrite IH; [reflexivity|]. intros H. apply Hnot. now right.
Qed.

Lemma hash_groups_append_keys d h block :
  In h (map fst d) ->
  map fst (hash_groups_append d h block) = map fst d.
Proof.
  induction d as [|[k bs] d IH]; simpl; [intros []|].
  intros Hin. destruct (String.eqb_spec k h) as [->|Hne]; simpl; [reflexivity|].
  rewrite IH; [reflexivity|]. destruct Hin; [contradiction|assumption].
Qed.

Lemma hash_groups_append_In d h block k bs :
  List.NoDup (map fst d) ->
  In (k, bs) (hash_groups_append d h block) ->
  (k <> h /\ In (k, bs) d) \/
  (k = h /\ exists bs0, In (h, bs0) d /\ bs = (bs0 ++ [block])%list) \/
  (k = h /\ ~ In h (map fst d) /\ bs = [block]).
Proof.
  induction d as [|[k0 bs0] d IH]; simpl.
  - intros _ [[= <- <-]|[]]. right; right. auto.
  - intros Hnd. inversion Hnd as [|? ? Hk0 Hnd']; subst.
    destruct (String.eqb_spec k0 h) as [->|Hne]; simpl.
    + intros [[= <- <-]|Hin].
      * right; left. split; [reflexivity|]. exists bs0. auto.
      * left. split; [|auto]. intros ->. apply Hk0.
        change h with (fst (h, bs)). now apply in_map.
    + intros [[= <- <-]|Hin]; [left; auto|].
      destruct (IH Hnd' Hin) as [[? ?]|[(-> & bs1 & ? & ->)|(-> & Hnot & ->)]].
      * left; auto.
      * right; left. split; [reflexivity|]. exists bs1. auto.
      * right; right. split; [reflexivity|]. split; [|reflexivity].
        intros [E|Hin']; auto.
Qed.

(** The dictionary after the first loop: its keys are distinct, every
    block's hash is a key, and the bucket of a key holds the blocks with
    that hash, in input order. *)
Lemma build_hash_groups_spec blocks :
  List.NoDup (map fst (build_hash_groups blocks)) /\
  (forall block, In block blocks ->
     In (content_hash block) (map fst (build_hash_groups blocks))) /\
  (forall h group_blocks, In (h, group_blocks) (build_hash_groups blocks) ->
     group_blocks = List.filter (has_hash h) blocks /\ group_blocks <> []).
Proof.
  unfold build_hash_groups.
  induction blocks as [|block blocks IH] using rev_ind; simpl.
  - split; [constructor|]. split; intros; contradiction.
  - rewrite fold_left_app; simpl.
    set (d := fold_left _ blocks []) in *.
    destruct IH as (Hnd & Hcov & Hbuckets).
    destruct (in_dec string_dec (content_hash block) (map fst d)) as [Hin|Hnot].
    + split; [now rewrite hash_groups_append_keys|].
      split.
      * intros b Hb. rewrite hash_groups_append_keys by assumption.
        apply in_app_or in Hb as [Hb|[<-|[]]]; auto.
      * intros h bs Hbs. rewrite List.filter_app; simpl. unfold has_hash at 2.
        apply hash_groups_append_In in Hbs as
            [[Hne Hd]|[(-> & bs0 & Hd & ->)|(-> & Hnot & _)]];
          try assumption; try contradiction.
        -- destruct (String.eqb_spec (content_hash block) h); [congruence|].
           rewrite app_nil_r. now apply Hbuckets.
        -- rewrite String.eqb_refl. destruct (Hbuckets _ _ Hd) as [<- _].
           split; [reflexivity|]. now destruct bs0.
    + rewrite hash_groups_append_new by assumption.
      split.
      { rewrite map_app; simpl. apply List.NoDup_app; [assumption | |].
        - repeat constructor. simpl; intros [].
        - intros k Hk [<-|[]]. contradiction. }
      split.
      * intros b Hb. rewrite map_app. apply in_or_app.
        apply in_app_or in Hb as [Hb|[<-|[]]]; [left; auto | right; now left].
      * intros h bs Hbs. rewrite List.filter_app; simpl. unfold has_hash at 2.
        apply in_app_or in Hbs as [Hd|[[= <- <-]|[]]].
        -- destruct (String.eqb_spec (content_hash block) h) as [<-|Hne].
           { exfalso. apply Hnot. change (content_hash block) with
               (fst (content_hash block, bs)). now apply in_map. }
           rewrite app_nil_r. now apply Hbuckets.
        -- rewrite String.eqb_refl. split; [|discriminate].
           replace (List.filter (has_hash (content_hash block)) blocks)
             with (@nil CodeBlock); [reflexivity|].
           symmetry. apply filter_none. intros b Hb. unfold has_hash.
           destruct (String.eqb_spec (content_hash b) (content_hash block)) as [E|];
             [|reflexivity].
           exfalso. apply Hnot. rewrite <- E. now apply Hcov.
Qed.

Lemma make_group_Ok_inv h group_blocks group :
  make_group h group_blocks = Ok group ->
  exists b0 rest,
    group_blocks = b0 :: rest /\
    group =
      mkDuplicateGroup
        ("dg_" +:+ slice_to 12 h)
        (code_block.pattern_id b0)
        (map block_id group_blocks)
        1.0%float
        "exact_match"
        (code_block.category b0)
        (code_block.language b0)
        (len group_blocks)
        (sum (map line_count group_blocks))
        (affected_files_of group_blocks)
        [repository_path b0].
Proof.
  unfold make_group. destruct group_blocks as [|b0 rest]; simpl; [discriminate|].
  intros [= <-]. eauto.
Qed.

Lemma make_group_nonempty h group_blocks :
  2 <= len group_blocks -> exists group, make_group h group_blocks = Ok group.
Proof.
  unfold make_group, len. destruct group_blocks; simpl; [lia|eauto].
Qed.

(** The second loop never raises: it appends one group for each bucket of
    two or more blocks, in the order of the dictionary. *)
Lemma group_loop_spec items : forall groups,
  exists emitted,
    group_loop items groups = Ok (groups ++ emitted)%list /\
    Forall2 (fun item group => make_group (fst item) (snd item) = Ok group)
      (List.filter (fun item => 2 <=? len (snd item)) items) emitted.
Proof.
  induction items as [|[h bs] items IH]; intros groups; simpl.
  - exists []. rewrite app_nil_r. split; [reflexivity|constructor].
  - destruct (2 <=? len bs) eqn:E.
    + apply Z.leb_le in E. destruct (make_group_nonempty h bs E) as [g Hg].
      rewrite Hg; simpl. destruct (IH (append groups g)) as (gs & -> & HF).
      exists (g :: gs). unfold append. rewrite <- app_assoc. split; [reflexivity|].
      now constructor.
    + apply IH.
Qed.

Lemma group_duplicates_spec blocks :
  exists groups,
    group_duplicates blocks = Ok groups /\
    Forall2 (fun item group => make_group (fst item) (snd item) = Ok group)
      (List.filter (fun item => 2 <=? len (snd item)) (build_hash_groups blocks))
      groups.
Proof.
  unfold group_duplicates.
  destruct (group_loop_spec (build_hash_groups blocks) []) as (gs & E & HF).
  exists gs. now split.
Qed.

(** Where an emitted group comes from. *)
Lemma group_duplicates_In blocks groups group :
  group_duplicates blocks = Ok groups -> In group groups ->
  exists h b0 rest,
    List.filter (has_hash h) blocks = b0 :: rest /\
    2 <= len (b0 :: rest) /\
    make_group h (b0 :: rest) = Ok group.
Proof.
  intros E Hin. destruct (group_duplicates_spec blocks) as (gs & E' & HF).
  rewrite E in E'. injection E' as <-.
  destruct (Forall2_In_r _ _ _ _ HF Hin) as ([h bs] & Hitem & Hg).
  apply filter_In in Hitem as [Hitem Hlen]. simpl in *.
  apply Z.leb_le in Hlen.
  destruct (proj2 (proj2 (build_hash_groups_spec blocks)) _ _ Hitem) as [Hbs _].
  destruct (make_group_Ok_inv _ _ _ Hg) as (b0 & rest & -> & _).
  exists h, b0, rest. rewrite <- Hbs. auto.
Qed.

(** ** Properties of the suggestion generator *)

Lemma generate_suggestions_eq groups :
  generate_suggestions groups = map make_suggestion groups.
Proof.
  unfold generate_suggestions.
  enough (H : forall acc,
             fold_left (fun suggestions group =>
                          append suggestions (make_suggestion group)) groups acc
             = (acc ++ map make_suggestion groups)%list) by apply H.
  induction groups as [|g groups IH]; intros acc; simpl.
  - now rewrite app_nil_r.
  - rewrite IH. unfold append. now rewrite <- app_assoc.
Qed.

(** ** Properties of the metrics and of the whole run *)

Lemma traverse_loc_reduction groups :
  Forall (fun g => occurrence_count g <> 0) groups ->
  traverse loc_reduction groups = Ok (map loc_saving groups).
Proof.
  induction 1 as [|g groups Hg _ IH]; simpl; [reflexivity|].
  unfold loc_reduction at 1, floordiv.
  apply Z.eqb_neq in Hg. rewrite Hg; simpl. now rewrite IH.
Qed.

Lemma group_duplicates_occurrence blocks groups :
  group_duplicates blocks = Ok groups ->
  Forall (fun g => occurrence_count g = len (member_block_ids g) /\
                   2 <= occurrence_count g) groups.
Proof.
  intros E. apply List.Forall_forall. intros g Hg.
  destruct (group_duplicates_In _ _ _ E Hg) as (h & b0 & rest & _ & Hlen & Hmk).
  destruct (make_group_Ok_inv _ _ _ Hmk) as (b0' & rest' & _ & ->).
  cbn [occurrence_count member_block_ids].
  split; [|assumption]. unfold len. now rewrite length_map.
Qed.

(** From the blocks on the run cannot raise: the report is the one below. *)
Lemma analyse_spec blocks :
  exists groups,
    group_duplicates blocks = Ok groups /\
    analyse blocks =
      Ok (Report.mk blocks groups (map make_suggestion groups)
            (ScanMetrics.mk
               (len blocks)
               (len groups)
               (len (List.filter
                       (fun g => String.eqb (similarity_method g) "exact") groups))
               0
               0
               (sum (map total_lines groups))
               (sum (map loc_saving groups))
               0.0%float
               (len (map make_suggestion groups))
               (len (List.filter
                       (fun s => String.eqb (complexity s) "trivial")
                       (map make_suggestion groups)))
               (len (List.filter
                       (fun s => PrimFloat.leb 75%float (impact_score s))
                       (map make_suggestion groups))))).
Proof.
  destruct (group_duplicates_spec blocks) as (groups & E & _).
  exists groups. split; [assumption|].
  unfold analyse, calculate_metrics. rewrite E; simpl.
  rewrite generate_suggestions_eq, traverse_loc_reduction; [reflexivity|].
  eapply List.Forall_impl; [|apply (group_duplicates_occurrence _ _ E)].
  simpl. intros g [_ H]. lia.
Qed.

(** A report on the standard output is the analysis of the extracted
    blocks of an input that has both top-level keys. *)
Lemma main_stdout input_data report :
  Process.stdout (main input_data) = Some report ->
  exists repository_info pattern_matches,
    InputData.repository_info input_data = Some repository_info /\
    InputData.pattern_matches input_data = Some pattern_matches /\
    analyse (fst (extract_code_blocks pattern_matches repository_info)) = Ok report.
Proof.
  unfold main, run.
  destruct (InputData.repository_info input_data) as [repo|]; simpl; [|discriminate].
  destruct (InputData.pattern_matches input_data) as [pms|]; simpl; [|discriminate].
  destruct (extract_code_blocks pms repo) as [blocks err] eqn:Ex; simpl.
  destruct (analyse blocks) as [r|e] eqn:Ea; simpl; [|discriminate].
  intros [= <-]. exists repo, pms. rewrite Ex. auto.
Qed.

(** An input that has both top-level keys always yields a report and the
    exit code 0, whatever its match records are. *)
Lemma main_succeeds input_data repository_info pattern_matches :
  InputData.repository_info input_data = Some repository_info ->
  InputData.pattern_matches input_data = Some pattern_matches ->
  exists report,
    main input_data =
      Process.mk (Some report)
        (snd (extract_code_blocks pattern_matches repository_info)) 0 /\
    analyse (fst (extract_code_blocks pattern_matches repository_info)) = Ok report.
Proof.
  intros Hr Hp. unfold main, run. rewrite Hr, Hp; simpl.
  destruct (extract_code_blocks pattern_matches repository_info) as [blocks err]; simpl.
  destruct (analyse_spec blocks) as (groups & _ & ->). eauto.
Qed.


Lemma Forall2_map_graph {A B : Type} (f : A -> B) (l : list A) :
  Forall2 (fun x y => y = f x) l (map f l).
Proof. induction l; simpl; constructor; auto. Qed.

Lemma Forall2_weaken {A B : Type} (P Q : A -> B -> Prop) l1 l2 :
  (forall x y, P x y -> Q x y) -> Forall2 P l1 l2 -> Forall2 Q l1 l2.
Proof. intros HPQ. induction 1; constructor; auto. Qed.

Lemma filter_has_hash_unique h blocks :
  List.NoDup (map content_hash blocks) ->
  (length (List.filter (has_hash h) blocks) <= 1)%nat.
Proof.
  induction blocks as [|b blocks IH]; simpl; [lia|].
  intros Hnd. inversion Hnd as [|? ? Hb Hnd']; subst.
  unfold has_hash at 1. destruct (String.eqb_spec (content_hash b) h) as [<-|Hne].
  - simpl. rewrite filter_none; [simpl; lia|].
    intros b' Hb'. unfold has_hash.
    destruct (String.eqb_spec (content_hash b') (content_hash b)) as [E|];
      [|reflexivity].
    exfalso. apply Hb. rewrite <- E. now apply in_map.
  - now apply IH.
Qed.

Lemma loc_saving_bounds g :
  2 <= occurrence_count g ->
  (0 <= total_lines g -> 0 <= loc_saving g <= total_lines g) /\
  (total_lines g < 0 -> total_lines g < loc_saving g).
Proof.
  intros Hocc. unfold loc_saving. split; intros Ht.
  - assert (0 <= total_lines g / occurrence_count g)
      by (apply Z.div_pos; lia).
    assert (total_lines g / occurrence_count g <= total_lines g)
      by (apply Z.div_le_upper_bound; nia).
    lia.
  - assert (total_lines g / occurrence_count g < 0)
      by (apply Z.div_lt_upper_bound; lia).
    lia.
Qed.

(** ** The claims of the specification *)


(** C3. The grouper never raises, and every group it emits has
    occurrence_count = |member_block_ids| >= 2 and is built from the
    blocks that share one content hash. The groups are, in order, one for
    each bucket of the dictionary that holds two or more blocks: a bucket
    with a single block yields nothing, so that no group at all is
    emitted when the content hashes of the blocks are pairwise distinct. *)
Theorem group_duplicates_at_least_two (blocks : list CodeBlock) :
  exists groups,
    group_duplicates blocks = Ok groups /\
    (forall g, In g groups ->
       occurrence_count g = len (member_block_ids g) /\
       2 <= occurrence_count g /\
       exists h,
         member_block_ids g = map block_id (List.filter (has_hash h) blocks)) /\
    Forall2 (fun item g => make_group (fst item) (snd item) = Ok g)
      (List.filter (fun item => 2 <=? len (snd item)) (build_hash_groups blocks))
      groups /\
    (List.NoDup (map content_hash blocks) -> groups = []).
Proof.
  destruct (group_duplicates_spec blocks) as (groups & E & HF).
  exists groups. split; [assumption|]. split; [|split; [assumption|]].
  - intros g Hg.
    pose proof (group_duplicates_occurrence _ _ E) as Hocc.
    rewrite List.Forall_forall in Hocc. destruct (Hocc g Hg) as [H1 H2].
    split; [assumption|]. split; [assumption|].
    destruct (group_duplicates_In _ _ _ E Hg) as (h & b0 & rest & Hf & _ & Hmk).
    destruct (make_group_Ok_inv _ _ _ Hmk) as (? & ? & _ & ->).
    exists h. cbn [member_block_ids]. now rewrite Hf.
  - intros Hnd. destruct groups as [|g groups]; [reflexivity|]. exfalso.
    destruct (group_duplicates_In _ _ _ E (or_introl eq_refl))
      as (h & b0 & rest & Hf & Hlen & _).
    pose proof (filter_has_hash_unique h blocks Hnd) as Hle.
    rewrite Hf in Hle. unfold len in Hlen. lia.
Qed.

(** C7. The identifiers are functions of what the specification names:
    the block_id of an emitted block is computed from its file_path and
    line_start alone, the group_id of an emitted group from the content
    hash its members share, and the suggestion_id from the group_id.
    (The run is a function of its input, so two runs on the same input
    agree on everything they compute.) *)
Theorem identifiers_are_stable :
  (forall pattern_matches repository_info block,
      In block (fst (extract_code_blocks pattern_matches repository_info)) ->
      block_id block =
        "cb_" +:+ slice_to 12
          (sha256_hexdigest
             (file_path (location block) +:+ ":"
                +:+ str_int (line_start (location block))))) /\
  (forall blocks groups g,
      group_duplicates blocks = Ok groups -> In g groups ->
      exists h,
        group_id g = "dg_" +:+ slice_to 12 h /\
        member_block_ids g = map block_id (List.filter (has_hash h) blocks) /\
        List.filter (has_hash h) blocks <> [] /\
        forall b, In b (List.filter (has_hash h) blocks) -> content_hash b = h) /\
  (forall groups,
      Forall2 (fun g s =>
                 suggestion_id s = "cs_" +:+ group_id g /\
                 duplicate_group_id s = group_id g)
        groups (generate_suggestions groups)).
Proof.
  split; [|split].
  - intros pms repo block. rewrite extract_code_blocks_eq; simpl. intros Hin.
    destruct (kept_In _ _ _ Hin) as (m & _ & E).
    destruct (extract_block_Ok_inv _ _ _ E)
      as (fp & ls & rid & r & _ & _ & _ & _ & ->).
    reflexivity.
  - intros blocks groups g E Hg.
    destruct (group_duplicates_In _ _ _ E Hg) as (h & b0 & rest & Hf & _ & Hmk).
    destruct (make_group_Ok_inv _ _ _ Hmk) as (? & ? & _ & ->).
    exists h. cbn [group_id member_block_ids]. rewrite Hf.
    split; [reflexivity|]. split; [reflexivity|]. split; [discriminate|].
    intros b Hb. rewrite <- Hf in Hb. apply filter_In in Hb as [_ Hb].
    now apply String.eqb_eq in Hb.
  - intros groups. rewrite generate_suggestions_eq.
    eapply Forall2_weaken; [|apply Forall2_map_graph].
    intros g s ->. split; reflexivity.
Qed.

(** C2. The strategy of the suggestion generated for a group is a
    function of the group's occurrence_count alone: local_util up to 3,
    shared_package from 4 to 10, mcp_server above 10; so the counts 3 and
    4, and the counts 10 and 11, get different strategies. *)
Theorem strategy_thresholds :
  (forall groups,
      Forall2 (fun g s => strategy s = strategy_of (occurrence_count g))
        groups (generate_suggestions groups)) /\
  (forall n,
      (n <= 3 -> strategy_of n = "local_util") /\
      (4 <= n <= 10 -> strategy_of n = "shared_package") /\
      (10 < n -> strategy_of n = "mcp_server")) /\
  strategy_of 3 <> strategy_of 4 /\
  strategy_of 10 <> strategy_of 11.
Proof.
  split; [|split; [|split; discriminate]].
  - intros groups. rewrite generate_suggestions_eq.
    eapply Forall2_weaken; [|apply Forall2_map_graph].
    now intros g s ->.
  - intros n. unfold strategy_of. repeat split; intros H.
    + destruct (Z.leb_spec n 3); [reflexivity|lia].
    + destruct (Z.leb_spec n 3); [lia|].
      destruct (Z.leb_spec n 10); [reflexivity|lia].
    + destruct (Z.leb_spec n 3); [lia|].
      destruct (Z.leb_spec n 10); [lia|reflexivity].
Qed.

(** C9. The confidence of the suggestion generated for each group is 0.9
    when 0.95 <= similarity_score and 0.7 otherwise; every group the
    grouper emits has similarity_score 1.0, so the suggestion generated for
    each of its groups has confidence 0.9. *)
Theorem confidence_rule :
  (forall groups,
      Forall2 (fun g s =>
                 confidence s
                 = if PrimFloat.leb 0.95%float (similarity_score g)
                   then 0.9%float else 0.7%float)
        groups (generate_suggestions groups)) /\
  (forall blocks,
      exists groups,
        group_duplicates blocks = Ok groups /\
        Forall2 (fun g s =>
                   similarity_score g = 1.0%float /\
                   confidence s = 0.9%float)
          groups (generate_suggestions groups)).
Proof.
  split.
  - intros groups. rewrite generate_suggestions_eq.
    eapply Forall2_weaken; [|apply Forall2_map_graph].
    now intros g s ->.
  - intros blocks. destruct (group_duplicates_spec blocks) as (groups & E & _).
    exists groups. split; [assumption|].
    rewrite generate_suggestions_eq.
    assert (Hsim : forall g, In g groups -> similarity_score g = 1.0%float).
    { intros g Hg.
      destruct (group_duplicates_In _ _ _ E Hg) as (h & b0 & rest & _ & _ & Hmk).
      now destruct (make_group_Ok_inv _ _ _ Hmk) as (? & ? & _ & ->). }
    clear E. induction groups as [|g groups IH]; simpl; constructor.
    + split; [apply Hsim; now left|].
      unfold make_suggestion, confidence_of; simpl.
      rewrite (Hsim g) by now left. reflexivity.
    + apply IH. intros g' Hg'. apply Hsim. now right.
Qed.

(** The literal the metrics compare [similarity_method] with is not the
    one the grouper writes: whatever the input, every group of a report
    is tagged exact_match and the count exact_duplicates is 0. *)
Lemma exact_duplicates_is_zero input_data report :
  Process.stdout (main input_data) = Some report ->
  Forall (fun g => similarity_method g = "exact_match")
    (Report.duplicate_groups report) /\
  ScanMetrics.total_duplicate_groups (Report.metrics report)
    = len (Report.duplicate_groups report) /\
  ScanMetrics.exact_duplicates (Report.metrics report) = 0.
Proof.
  intros Hout. destruct (main_stdout _ _ Hout) as (repo & pms & _ & _ & Ha).
  destruct (analyse_spec (fst (extract_code_blocks pms repo)))
    as (groups & E & Ha').
  rewrite Ha in Ha'. injection Ha' as ->. simpl.
  assert (Htag : Forall (fun g => similarity_method g = "exact_match") groups).
  { apply List.Forall_forall. intros g Hg.
    destruct (group_duplicates_In _ _ _ E Hg) as (h & b0 & rest & _ & _ & Hmk).
    now destruct (make_group_Ok_inv _ _ _ Hmk) as (? & ? & _ & ->). }
  split; [assumption|]. split; [reflexivity|].
  rewrite filter_none; [reflexivity|].
  intros g Hg. rewrite List.Forall_forall in Htag. now rewrite (Htag g Hg).
Qed.

(** C10. Whatever the input, every suggestion of a report has complexity
    simple, and the count quick_wins, which selects complexity trivial,
    is 0. *)
Theorem quick_wins_is_zero input_data report :
  Process.stdout (main input_data) = Some report ->
  Forall (fun s => complexity s = "simple") (Report.suggestions report) /\
  ScanMetrics.quick_wins (Report.metrics report) = 0.
Proof.
  intros Hout. destruct (main_stdout _ _ Hout) as (repo & pms & _ & _ & Ha).
  destruct (analyse_spec (fst (extract_code_blocks pms repo)))
    as (groups & E & Ha').
  rewrite Ha in Ha'. injection Ha' as ->. simpl.
  assert (Hsimple : Forall (fun s => complexity s = "simple")
                      (map make_suggestion groups)).
  { apply List.Forall_forall. intros s Hs.
    now apply in_map_iff in Hs as (g & <- & _). }
  split; [assumption|].
  rewrite filter_none; [reflexivity|].
  intros s Hs. rewrite List.Forall_forall in Hsimple. now rewrite (Hsimple s Hs).
Qed.

(** ** Further properties of the extractor *)




Lemma kept_filter_well_formed ms repository_info :
  kept (List.filter well_formed ms) repository_info = kept ms repository_info.
Proof.
  induction ms as [|m ms IH]; simpl; [reflexivity|].
  destruct (well_formed m) eqn:W; simpl.
  - destruct (extract_block m repository_info); now rewrite IH.
  - destruct (extract_block_malformed m repository_info W) as (key & _ & ->).
    exact IH.
Qed.





Lemma category_table_keys_distinct : NoDup (category_table.*1).
Proof. apply (bool_decide_unpack _). vm_compute. exact I. Qed.

Lemma category_table_values p :
  In p category_table -> In (snd p) categories.
Proof.
  unfold category_table. simpl.
  intros H.
  repeat (destruct H as [<-|H]; [simpl; auto 10|]).
  destruct H.
Qed.

Lemma category_of_spec (rule_id v : string) :
  (category_of rule_id = v <->
   In (rule_id, v) category_table \/
   (~ In rule_id (map fst category_table) /\ v = "utility")) /\
  In (category_of rule_id) categories.
Proof.
  unfold category_of. change category_map with
    (list_to_map category_table : gmap string string).
  destruct (list_to_map category_table !! rule_id) as [x|] eqn:E.
  - change (default "utility" (Some x)) with x.
    pose proof (elem_of_list_to_map_2 _ _ _ E) as Hin.
    apply list_elem_of_In in Hin. split.
    + split.
      * intros <-. now left.
      * intros [Hv|[Hnot _]].
        -- apply list_elem_of_In in Hv.
           apply (elem_of_list_to_map_1 _ _ _ category_table_keys_distinct) in Hv.
           congruence.
        -- exfalso. apply Hnot.
           change rule_id with (fst (rule_id, x)). now apply in_map.
    + apply (category_table_values _ Hin).
  - change (default "utility" (@None string)) with "utility".
    apply not_elem_of_list_to_map_2 in E. split; [|simpl; auto].
    split.
    + intros <-. right. split; [|reflexivity].
      intros Hin. apply E. apply list_elem_of_In.
      exact Hin.
    + intros [Hv|[_ ->]]; [|reflexivity].
      exfalso. apply E. apply list_elem_of_In.
      change rule_id with (fst (rule_id, v)).
      exact (in_map fst _ _ Hv).
Qed.

(** X5. The lookup with default is a function of the table alone: a rule
    identifier that is a key gets the category of its entry (no key occurs
    twice), any other identifier gets utility; so the category is always
    one of the nine categories of the table. *)
Theorem category_of_characterised (rule_id v : string) :
  (category_of rule_id = v <->
   In (rule_id, v) category_table \/
   (~ In rule_id (map fst category_table) /\ v = "utility")) /\
  In (category_of rule_id) categories.
Proof. apply category_of_spec. Qed.

(** X6. What an emitted block carries besides its identifier and its lines:
    the rule identifier and the text of the record it comes from (the empty
    text when the record has none), the file path twice, the language
    javascript, the category looked up for its rule identifier, and the path
    of the repository descriptor. *)
Theorem extracted_block_fields pattern_matches repository_info block :
  In block (fst (extract_code_blocks pattern_matches repository_info)) ->
  relative_path block = file_path (location block) /\
  code_block.language block = "javascript" /\
  code_block.category block = category_of (code_block.pattern_id block) /\
  In (code_block.category block) categories /\
  RepositoryInfo.path repository_info = Some (repository_path block) /\
  exists m,
    In m pattern_matches /\
    PatternMatch.rule_id m = Some (code_block.pattern_id block) /\
    PatternMatch.file_path m = Some (file_path (location block)) /\
    source_code block = get (PatternMatch.matched_text m) "".
Proof.
  rewrite extract_code_blocks_eq; simpl. intros Hin.
  destruct (kept_In _ _ _ Hin) as (m & Hm & E).
  destruct (extract_block_Ok_inv _ _ _ E)
    as (fp & ls & rid & r & Hfp & _ & Hrid & Hrepo & ->).
  simpl. repeat split; try assumption.
  - apply (category_of_spec rid "").
  - exists m. auto.
Qed.


(** ** Further properties of the grouper *)

Lemma Forall2_In_l {A B : Type} (R : A -> B -> Prop) l1 l2 x :
  Forall2 R l1 l2 -> In x l1 -> exists y, In y l2 /\ R x y.
Proof.
  induction 1 as [|a b l1 l2 HR _ IH]; simpl; [intros []|].
  intros [<- | H]; [eauto|]. destruct (IH H) as (y & ? & ?); eauto.
Qed.

Lemma sum_from (l : list Z) : forall a, fold_left Z.add l a = a + sum l.
Proof.
  unfold sum. induction l as [|x l IH]; intros a; simpl; [lia|].
  rewrite (IH (a + x)), (IH (0 + x)). lia.
Qed.

Lemma sum_cons (x : Z) (l : list Z) : sum (x :: l) = x + sum l.
Proof. unfold sum at 1. simpl. now rewrite sum_from. Qed.

(** The number of blocks held by the buckets of a dictionary. *)
Lemma hash_groups_append_size d h block :
  list_sum (map (fun item => length (snd item)) (hash_groups_append d h block))
  = S (list_sum (map (fun item => length (snd item)) d)).
Proof.
  induction d as [|[k bs] d IH]; simpl; [reflexivity|].
  destruct (String.eqb k h); simpl.
  - unfold append. rewrite length_app; simpl. lia.
  - rewrite IH. lia.
Qed.

Lemma build_hash_groups_size blocks :
  list_sum (map (fun item => length (snd item)) (build_hash_groups blocks))
  = length blocks.
Proof.
  unfold build_hash_groups.
  induction blocks as [|block blocks IH] using rev_ind; simpl; [reflexivity|].
  rewrite fold_left_app; simpl.
  rewrite hash_groups_append_size, IH, length_app; simpl. lia.
Qed.

Lemma filter_size_le {A : Type} (f : A -> bool) (sz : A -> nat) (l : list A) :
  (list_sum (map sz (List.filter f l)) <= list_sum (map sz l))%nat.
Proof.
  induction l as [|x l IH]; simpl; [lia|].
  destruct (f x); simpl; lia.
Qed.

Lemma emitted_sizes items groups :
  Forall2 (fun item g => make_group (fst item) (snd item) = Ok g) items groups ->
  sum (map occurrence_count groups)
  = Z.of_nat (list_sum (map (fun item => length (snd item)) items)).
Proof.
  induction 1 as [|[h bs] g items groups Hg _ IH]; [reflexivity|].
  simpl map. rewrite sum_cons, IH.
  destruct (make_group_Ok_inv _ _ _ Hg) as (? & ? & _ & ->).
  cbn [occurrence_count]. unfold len. simpl. lia.
Qed.

Lemma sum_at_least_two groups :
  Forall (fun g => 2 <= occurrence_count g) groups ->
  2 * len groups <= sum (map occurrence_count groups).
Proof.
  induction 1 as [|g groups Hg _ IH]; [reflexivity|].
  simpl map. rewrite sum_cons. unfold len in *. simpl length. lia.
Qed.

Lemma first_occurrences_seen seen1 seen2 keys :
  (forall k, In k seen1 <-> In k seen2) ->
  first_occurrences seen1 keys = first_occurrences seen2 keys.
Proof.
  revert seen1 seen2. induction keys as [|k keys IH]; intros s1 s2 Hs; simpl;
    [reflexivity|].
  destruct (in_dec string_dec k s1) as [H1|H1],
           (in_dec string_dec k s2) as [H2|H2].
  - now apply IH.
  - exfalso. apply H2. now apply Hs.
  - exfalso. apply H1. now apply Hs.
  - f_equal. apply IH. intros k'. simpl. rewrite Hs. reflexivity.
Qed.

Lemma fold_hash_groups_keys blocks : forall d,
  map fst (fold_left (fun hash_groups block =>
                        hash_groups_append hash_groups (content_hash block) block)
             blocks d)
  = (map fst d ++ first_occurrences (map fst d) (map content_hash blocks))%list.
Proof.
  induction blocks as [|block blocks IH]; intros d; simpl.
  - now rewrite app_nil_r.
  - rewrite IH.
    destruct (in_dec string_dec (content_hash block) (map fst d)) as [Hin|Hnot].
    + now rewrite hash_groups_append_keys.
    + rewrite hash_groups_append_new by assumption.
      rewrite map_app; simpl. rewrite <- app_assoc; simpl.
      f_equal. f_equal. apply first_occurrences_seen.
      intros k. rewrite in_app_iff; simpl.
      split; [intros [H|[H|[]]]; auto | intros [H|H]; auto].
Qed.

Lemma filter_by_bucket (d : list (string * list CodeBlock))
    (F : string -> list CodeBlock) (P : list CodeBlock -> bool) :
  (forall item, In item d -> snd item = F (fst item)) ->
  map fst (List.filter (fun item => P (snd item)) d)
  = List.filter (fun h => P (F h)) (map fst d).
Proof.
  induction d as [|item d IH]; intros H; simpl; [reflexivity|].
  rewrite <- (H item) by now left.
  destruct (P (snd item)); simpl; rewrite IH; auto.
  - intros; apply H; now right.
  - intros; apply H; now right.
Qed.

(** X7. Blocks that share a content hash are grouped: when two or more blocks
    of the input have the content hash [h], one of the emitted groups lists
    exactly those blocks, in input order, and carries the identifier
    derived from [h]. *)
Theorem duplicates_are_grouped blocks h :
  2 <= len (List.filter (has_hash h) blocks) ->
  exists groups g,
    group_duplicates blocks = Ok groups /\
    In g groups /\
    group_id g = "dg_" +:+ slice_to 12 h /\
    member_block_ids g = map block_id (List.filter (has_hash h) blocks) /\
    occurrence_count g = len (List.filter (has_hash h) blocks).
Proof.
  intros Hlen.
  destruct (group_duplicates_spec blocks) as (groups & E & HF).
  destruct (build_hash_groups_spec blocks) as (_ & Hcov & Hbuckets).
  assert (Hkey : In h (map fst (build_hash_groups blocks))).
  { destruct (List.filter (has_hash h) blocks) as [|b rest] eqn:Hf;
      [unfold len in Hlen; simpl in Hlen; lia|].
    assert (Hb : In b (List.filter (has_hash h) blocks))
      by (rewrite Hf; now left).
    apply filter_In in Hb as [Hb Hh]. apply String.eqb_eq in Hh.
    rewrite <- Hh. now apply Hcov. }
  apply in_map_iff in Hkey as ([h' bs] & Hh' & Hitem). simpl in Hh'. subst h'.
  destruct (Hbuckets _ _ Hitem) as [Hbs _].
  assert (Hsel : In (h, bs)
                   (List.filter (fun item => 2 <=? len (snd item))
                      (build_hash_groups blocks))).
  { apply filter_In. split; [assumption|]. simpl. rewrite Hbs.
    now apply Z.leb_le. }
  destruct (Forall2_In_l _ _ _ _ HF Hsel) as (g & Hg & Hmk). simpl in Hmk.
  destruct (make_group_Ok_inv _ _ _ Hmk) as (? & ? & _ & ->).
  exists groups. eexists. split; [exact E|]. split; [exact Hg|].
  cbn [group_id member_block_ids occurrence_count]. rewrite Hbs. auto.
Qed.

Lemma group_sizes_le blocks groups :
  group_duplicates blocks = Ok groups ->
  sum (map occurrence_count groups) <= len blocks /\
  2 * len groups <= len blocks.
Proof.
  intros E. destruct (group_duplicates_spec blocks) as (groups' & E' & HF).
  rewrite E in E'. injection E' as <-.
  assert (Hsum : sum (map occurrence_count groups) <= len blocks).
  { rewrite (emitted_sizes _ _ HF). unfold len.
    rewrite <- (build_hash_groups_size blocks).
    apply inj_le. apply filter_size_le. }
  split; [assumption|].
  etransitivity; [apply sum_at_least_two|exact Hsum].
  eapply List.Forall_impl; [|apply (group_duplicates_occurrence _ _ E)].
  simpl. intros g [_ H]. exact H.
Qed.

(** X8. The groups are disjoint parts of the input: their occurrence counts add
    up to at most the number of blocks, so there are at most half as many
    groups as blocks. *)
Theorem groups_partition_bound (blocks : list CodeBlock) :
  exists groups,
    group_duplicates blocks = Ok groups /\
    sum (map occurrence_count groups) <= len blocks /\
    2 * len groups <= len blocks.
Proof.
  destruct (group_duplicates_spec blocks) as (groups & E & _).
  exists groups. split; [assumption|]. now apply group_sizes_le.
Qed.

(** X9. A group is made of the blocks that have one content hash: its
    identifier derives from that hash and its members are those blocks. It
    takes its pattern, category, language and repository from the first of
    them in input order, and its total_lines is the sum of their line
    counts. *)
Theorem group_attributes blocks groups g :
  group_duplicates blocks = Ok groups ->
  In g groups ->
  exists h b0 rest,
    group_id g = "dg_" +:+ slice_to 12 h /\
    member_block_ids g = map block_id (b0 :: rest) /\
    List.filter (has_hash h) blocks = b0 :: rest /\
    duplicate_group.pattern_id g = code_block.pattern_id b0 /\
    duplicate_group.category g = code_block.category b0 /\
    duplicate_group.language g = code_block.language b0 /\
    affected_repositories g = [repository_path b0] /\
    total_lines g = sum (map line_count (b0 :: rest)) /\
    similarity_method g = "exact_match".
Proof.
  intros E Hg.
  destruct (group_duplicates_In _ _ _ E Hg) as (h & b0 & rest & Hf & _ & Hmk).
  destruct (make_group_Ok_inv _ _ _ Hmk) as (b0' & rest' & [= <- <-] & ->).
  exists h, b0, rest. repeat split; auto.
Qed.

(** X10. The affected files of a group are the file paths of its members, each
    listed once: between one path and as many as the group has members. *)
Theorem affected_files_are_member_paths blocks groups g :
  group_duplicates blocks = Ok groups ->
  In g groups ->
  exists h,
    member_block_ids g = map block_id (List.filter (has_hash h) blocks) /\
    List.NoDup (affected_files g) /\
    (forall f, In f (affected_files g) <->
               exists b, In b blocks /\ content_hash b = h /\
                         file_path (location b) = f) /\
    1 <= len (affected_files g) <= occurrence_count g.
Proof.
  intros E Hg.
  destruct (group_duplicates_In _ _ _ E Hg) as (h & b0 & rest & Hf & _ & Hmk).
  destruct (make_group_Ok_inv _ _ _ Hmk) as (? & ? & _ & ->).
  exists h. cbn [member_block_ids affected_files occurrence_count].
  rewrite <- Hf. unfold affected_files_of.
  set (paths := map (fun b => file_path (location b))
                  (List.filter (has_hash h) blocks)).
  assert (Hmem : forall f, In f (elements (list_to_set (C := gset string) paths))
                           <-> In f paths).
  { intros f. rewrite <- !list_elem_of_In, elem_of_elements, elem_of_list_to_set.
    reflexivity. }
  assert (Hnd : NoDup (elements (list_to_set (C := gset string) paths)))
    by apply NoDup_elements.
  split; [reflexivity|]. split; [now apply NoDup_ListNoDup|]. split.
  - intros f. rewrite Hmem. unfold paths. rewrite in_map_iff. split.
    + intros (b & <- & Hb). apply filter_In in Hb as [Hb Hh].
      apply String.eqb_eq in Hh. eauto.
    + intros (b & Hb & Hh & <-). exists b. split; [reflexivity|].
      apply filter_In. split; [assumption|]. now apply String.eqb_eq.
  - split.
    + assert (Hin : In (file_path (location b0))
                      (elements (list_to_set (C := gset string) paths))).
      { apply Hmem. unfold paths. rewrite Hf. now left. }
      destruct (elements (list_to_set (C := gset string) paths));
        [destruct Hin | unfold len; simpl length; lia].
    + unfold len. apply inj_le.
      replace (length (List.filter (has_hash h) blocks)) with (length paths)
        by (unfold paths; apply length_map).
      apply submseteq_length, NoDup_submseteq; [assumption|].
      intros f. rewrite !list_elem_of_In. apply Hmem.
Qed.

(** X11. The groups come in the order in which their content hashes first appear
    in the input: their identifiers are those of the hashes, taken in order
    of first appearance, that two or more blocks have. *)
Theorem groups_follow_first_occurrence (blocks : list CodeBlock) :
  exists groups,
    group_duplicates blocks = Ok groups /\
    map group_id groups
    = map (fun h => "dg_" +:+ slice_to 12 h)
        (List.filter (fun h => 2 <=? len (List.filter (has_hash h) blocks))
           (first_occurrences [] (map content_hash blocks))).
Proof.
  destruct (group_duplicates_spec blocks) as (groups & E & HF).
  exists groups. split; [assumption|].
  destruct (build_hash_groups_spec blocks) as (_ & _ & Hbuckets).
  assert (Hkeys : map fst (build_hash_groups blocks)
                  = first_occurrences [] (map content_hash blocks))
    by apply (fold_hash_groups_keys blocks []).
  rewrite <- Hkeys.
  rewrite <- (filter_by_bucket (build_hash_groups blocks)
                (fun h => List.filter (has_hash h) blocks)
                (fun bs => 2 <=? len bs)).
  - rewrite map_map. clear E. revert HF. generalize
      (List.filter (fun item => 2 <=? len (snd item)) (build_hash_groups blocks)).
    intros items HF. induction HF as [|[h bs] g items groups Hg _ IH];
      [reflexivity|].
    simpl. rewrite IH. f_equal.
    now destruct (make_group_Ok_inv _ _ _ Hg) as (? & ? & _ & ->).
  - intros [h bs] Hitem. simpl. now destruct (Hbuckets _ _ Hitem).
Qed.


(** ** Further properties of the suggestion generator *)

(** X12. There is exactly one suggestion per group, in the order of the groups;
    it refers back to its group, counts the group's affected files and
    repositories, and always has complexity simple, migration risk low and
    no breaking changes. *)
Theorem suggestions_mirror_groups (groups : list DuplicateGroup) :
  len (generate_suggestions groups) = len groups /\
  Forall2 (fun g s =>
             duplicate_group_id s = group_id g /\
             affected_files_count s = len (affected_files g) /\
             affected_repositories_count s = len (affected_repositories g) /\
             strategy_rationale s
               = "Found " +:+ str_int (occurrence_count g) +:+ " occurrences in "
                   +:+ str_int (affected_files_count s) +:+ " files" /\
             complexity s = "simple" /\
             migration_risk s = "low" /\
             breaking_changes s = false)
    groups (generate_suggestions groups).
Proof.
  rewrite generate_suggestions_eq. split.
  - unfold len. now rewrite length_map.
  - eapply Forall2_weaken; [|apply Forall2_map_graph].
    intros g s ->. repeat split.
Qed.

(** X13. The impact score of a suggestion never exceeds 100: it is the group's
    score when that is not above 100 (also when it is not a number), and
    100 otherwise. *)
Theorem impact_score_is_capped (groups : list DuplicateGroup) :
  Forall2 (fun g s =>
             PrimFloat.ltb 100.0%float (impact_score s) = false /\
             (PrimFloat.ltb 100.0%float (group_impact_score g) = false ->
              impact_score s = group_impact_score g) /\
             (PrimFloat.ltb 100.0%float (group_impact_score g) = true ->
              impact_score s = 100.0%float))
    groups (generate_suggestions groups).
Proof.
  rewrite generate_suggestions_eq.
  eapply Forall2_weaken; [|apply Forall2_map_graph].
  intros g s ->. unfold make_suggestion, min_float; simpl.
  destruct (PrimFloat.ltb 100.0%float (group_impact_score g)) eqn:E.
  - repeat split; try reflexivity. discriminate.
  - repeat split; try assumption; try reflexivity. discriminate.
Qed.

(** ** Further properties of the whole run *)


Lemma sum_map_between {A : Type} (f g : A -> Z) (l : list A) :
  Forall (fun x => 0 <= f x <= g x) l ->
  0 <= sum (map f l) <= sum (map g l).
Proof.
  induction 1 as [|x l Hx _ IH]; simpl map; [unfold sum; simpl; lia|].
  rewrite !sum_cons. lia.
Qed.

Lemma sum_at_least_length (l : list Z) :
  Forall (fun x => 1 <= x) l -> len l <= sum l.
Proof.
  induction 1 as [|x l Hx _ IH]; [reflexivity|].
  rewrite sum_cons. unfold len in *. simpl length. lia.
Qed.

(** X17. The counters of a report agree with its lists: the block, group and
    suggestion counts are the lengths of the lists, there are as many
    suggestions as groups and at most half as many groups as blocks, the
    structural and semantic counts are 0, the duplicated lines are the sum
    of the groups' total lines, and the high-priority count lies between 0
    and the number of suggestions. *)
Theorem report_metrics_are_consistent input_data report :
  Process.stdout (main input_data) = Some report ->
  let m := Report.metrics report in
  ScanMetrics.total_code_blocks m = len (Report.code_blocks report) /\
  ScanMetrics.total_duplicate_groups m = len (Report.duplicate_groups report) /\
  ScanMetrics.total_suggestions m = len (Report.suggestions report) /\
  ScanMetrics.total_suggestions m = ScanMetrics.total_duplicate_groups m /\
  2 * ScanMetrics.total_duplicate_groups m <= ScanMetrics.total_code_blocks m /\
  ScanMetrics.structural_duplicates m = 0 /\
  ScanMetrics.semantic_duplicates m = 0 /\
  ScanMetrics.total_duplicated_lines m
    = sum (map total_lines (Report.duplicate_groups report)) /\
  0 <= ScanMetrics.high_priority_suggestions m <= ScanMetrics.total_suggestions m.
Proof.
  intros Hout. destruct (main_stdout _ _ Hout) as (repo & pms & _ & _ & Ha).
  destruct (analyse_spec (fst (extract_code_blocks pms repo)))
    as (groups & E & Ha').
  rewrite Ha in Ha'. injection Ha' as ->. simpl.
  destruct (group_sizes_le _ _ E) as [_ Hhalf].
  repeat split; try reflexivity; try assumption.
  - unfold len. now rewrite length_map.
  - unfold len. lia.
  - unfold len. apply inj_le. apply List.filter_length_le.
Qed.

(** X18. When no extracted block has its line_end before its line_start, every
    group has at least as many lines as members, and potential_loc_reduction
    lies between 0 and total_duplicated_lines. *)
Theorem potential_loc_reduction_bounds input_data report :
  Process.stdout (main input_data) = Some report ->
  Forall (fun b => line_start (location b) <= line_end (location b))
    (Report.code_blocks report) ->
  Forall (fun g => occurrence_count g <= total_lines g)
    (Report.duplicate_groups report) /\
  0 <= ScanMetrics.potential_loc_reduction (Report.metrics report)
    <= ScanMetrics.total_duplicated_lines (Report.metrics report).
Proof.
  intros Hout. destruct (main_stdout _ _ Hout) as (repo & pms & _ & _ & Ha).
  destruct (analyse_spec (fst (extract_code_blocks pms repo)))
    as (groups & E & Ha').
  rewrite Ha in Ha'. injection Ha' as ->. simpl. intros Hspans.
  assert (Hcount : Forall (fun b => 1 <= line_count b)
                     (fst (extract_code_blocks pms repo))).
  { rewrite List.Forall_forall in Hspans. apply List.Forall_forall.
    intros b Hb. specialize (Hspans b Hb).
    rewrite extract_code_blocks_eq in Hb; simpl in Hb.
    destruct (kept_In _ _ _ Hb) as (m & _ & Eb).
    destruct (extract_block_Ok_inv _ _ _ Eb)
      as (fp & ls & rid & r & _ & _ & _ & _ & ->).
    simpl in *. lia. }
  assert (Hlines : Forall (fun g => 2 <= occurrence_count g /\
                                    occurrence_count g <= total_lines g) groups).
  { apply List.Forall_forall. intros g Hg.
    destruct (group_duplicates_In _ _ _ E Hg) as (h & b0 & rest & Hf & Hlen & Hmk).
    destruct (make_group_Ok_inv _ _ _ Hmk) as (? & ? & _ & ->).
    cbn [occurrence_count total_lines]. split; [assumption|].
    replace (len (b0 :: rest)) with (len (map line_count (b0 :: rest)))
      by (unfold len; now rewrite length_map).
    apply sum_at_least_length. rewrite <- Hf.
    apply List.Forall_forall. intros n Hn.
    apply in_map_iff in Hn as (b & <- & Hb).
    apply filter_In in Hb as [Hb _].
    rewrite List.Forall_forall in Hcount. now apply Hcount. }
  split.
  - eapply List.Forall_impl; [|exact Hlines]. simpl. intros g [_ H]. exact H.
  - apply sum_map_between.
    eapply List.Forall_impl; [|exact Hlines]. simpl. intros g [H2 Ht].
    apply loc_saving_bounds; lia.
Qed.

(** X19. When the content hashes of the extracted blocks are pairwise distinct
    (in particular for an empty list of matches) the report has no group
    and no suggestion, and every duplicate counter is 0. *)
Theorem no_duplicates_no_groups input_data report :
  Process.stdout (main input_data) = Some report ->
  List.NoDup (map content_hash (Report.code_blocks report)) ->
  Report.duplicate_groups report = [] /\
  Report.suggestions report = [] /\
  ScanMetrics.total_duplicate_groups (Report.metrics report) = 0 /\
  ScanMetrics.total_duplicated_lines (Report.metrics report) = 0 /\
  ScanMetrics.potential_loc_reduction (Report.metrics report) = 0 /\
  ScanMetrics.total_suggestions (Report.metrics report) = 0 /\
  ScanMetrics.high_priority_suggestions (Report.metrics report) = 0.
Proof.
  intros Hout. destruct (main_stdout _ _ Hout) as (repo & pms & _ & _ & Ha).
  destruct (analyse_spec (fst (extract_code_blocks pms repo)))
    as (groups & E & Ha').
  rewrite Ha in Ha'. injection Ha' as ->. simpl. intros Hnd.
  assert (Hnone : groups = []).
  { destruct groups as [|g groups]; [reflexivity|]. exfalso.
    destruct (group_duplicates_In _ _ _ E (or_introl eq_refl))
      as (h & b0 & rest & Hf & Hlen & _).
    pose proof (filter_has_hash_unique h _ Hnd) as Hle.
    rewrite Hf in Hle. unfold len in Hlen. lia. }
  subst groups. repeat split; reflexivity.
Qed.



(** ** The extractor on JSON records *)

Arguments slice_to : simpl never.

Lemma subscript_Ok_inv v key x :
  Json.subscript v key = Ok x ->
  exists items, v = JDict items /\ Json.lookup key items = Some x.
Proof.
  destruct v; simpl; try discriminate.
  destruct (Json.lookup key items) eqn:E; [|discriminate].
  intros [= <-]. eauto.
Qed.

Lemma new_SourceLocation_Ok_inv fp ls le loc :
  new_SourceLocation fp ls le = Ok loc ->
  exists path first last,
    fp = JStr path /\ ls = JInt first /\ le = JInt last /\
    loc = mkSourceLocation path first last.
Proof.
  unfold new_SourceLocation.
  destruct fp; try discriminate. destruct ls; try discriminate.
  destruct le; try discriminate. intros [= <-]. eauto 10.
Qed.

Lemma new_CodeBlock_Ok_inv id pid loc rp sc lang cat repo n block :
  new_CodeBlock id pid loc rp sc lang cat repo n = Ok block ->
  exists pattern path text r,
    pid = JStr pattern /\ rp = JStr path /\ sc = JStr text /\ repo = JStr r /\
    1 <= n /\
    block = mkCodeBlock id pattern loc path text lang cat r n.
Proof.
  unfold new_CodeBlock.
  destruct pid; try discriminate. destruct rp; try discriminate.
  destruct sc; try discriminate. destruct repo; try discriminate.
  destruct (Z.leb_spec 1 n); [|discriminate].
  intros [= <-]. eauto 10.
Qed.

(** What a block built from a JSON record says about the record. *)
Lemma json_extract_block_Ok_inv m repository_info block :
  json_extract_block m repository_info = Ok block ->
  exists items fp ls rid le text repo,
    m = JDict items /\
    Json.lookup "file_path" items = Some (JStr fp) /\
    Json.lookup "line_start" items = Some (JInt ls) /\
    Json.lookup "rule_id" items = Some (JStr rid) /\
    encode_error (fp +:+ ":" +:+ str_int ls) = None /\
    (Json.lookup "line_end" items = None /\ le = ls \/
     Json.lookup "line_end" items = Some (JInt le)) /\
    (Json.lookup "matched_text" items = None /\ text = "" \/
     Json.lookup "matched_text" items = Some (JStr text)) /\
    Json.subscript repository_info "path" = Ok (JStr repo) /\
    1 <= le - ls + 1 /\
    block =
      mkCodeBlock
        ("cb_" +:+ slice_to 12 (sha256_hexdigest (fp +:+ ":" +:+ str_int ls)))
        rid (mkSourceLocation fp ls le) fp text "javascript" (category_of rid)
        repo (le - ls + 1).
Proof.
  unfold json_extract_block.
  destruct (Json.subscript m "file_path") as [fp|] eqn:Efp; simpl; [|discriminate].
  destruct (subscript_Ok_inv _ _ _ Efp) as (items & -> & Hfp).
  simpl Json.subscript. simpl Json.get.
  destruct (Json.lookup "line_start" items) as [ls|] eqn:Hls; simpl; [|discriminate].
  unfold encode.
  destruct (encode_error (py_str fp +:+ ":" +:+ py_str ls)) eqn:Henc; simpl;
    [discriminate|].
  destruct (Json.lookup "rule_id" items) as [rid|] eqn:Hrid; simpl; [|discriminate].
  destruct (json_category rid) as [cat|] eqn:Hcat; simpl; [|discriminate].
  destruct (new_SourceLocation fp ls
              match Json.lookup "line_end" items with
              | Some x => x
              | None => ls
              end) as [loc|] eqn:Hloc.
  2:{ destruct (Json.lookup "line_end" items); simpl; rewrite Hloc; discriminate. }
  destruct (new_SourceLocation_Ok_inv _ _ _ _ Hloc)
    as (path & first & last & -> & -> & Hle & ->).
  assert (Hget : (match Json.lookup "line_end" items with
                  | Some x => Ok x
                  | None => Ok (JInt first)
                  end : result json) = Ok (JInt last)).
  { destruct (Json.lookup "line_end" items); now rewrite Hle. }
  rewrite Hget; simpl.
  assert (Htext : exists sc,
             (match Json.lookup "matched_text" items with
              | Some x => Ok x
              | None => Ok (JStr "")
              end : result json) = Ok sc /\
             (Json.lookup "matched_text" items = None /\ sc = JStr "" \/
              Json.lookup "matched_text" items = Some sc)).
  { destruct (Json.lookup "matched_text" items); eauto. }
  destruct Htext as (sc & -> & Hsc); simpl.
  destruct (Json.subscript repository_info "path") as [repo|] eqn:Hrepo; simpl;
    [|discriminate].
  intros Hnew.
  destruct (new_CodeBlock_Ok_inv _ _ _ _ _ _ _ _ _ _ Hnew)
    as (pattern & path' & text & r & -> & [= <-] & -> & -> & Hn & ->).
  simpl in Hcat. injection Hcat as <-. simpl in Henc.
  exists items, path, first, pattern, last, text, r.
  repeat split; try assumption; try reflexivity.
  - destruct (Json.lookup "line_end" items) as [x|]; [right|left].
    + now rewrite Hle.
    + injection Hle as <-. auto.
  - destruct Hsc as [[H1 [= ->]]|H2]; [left|right]; auto.
Qed.

Lemma json_extract_block_conforming m repository_info block :
  json_extract_block m repository_info = Ok block -> conforming m = true.
Proof.
  intros E. destruct (json_extract_block_Ok_inv _ _ _ E)
    as (items & fp & ls & rid & le & text & repo
        & -> & Hfp & Hls & Hrid & Henc & Hle & Htext & _ & Hn & _).
  unfold conforming. rewrite Hfp, Hls, Hrid, Henc.
  apply andb_true_intro. split.
  - destruct Hle as [[-> _]| ->]; [reflexivity|]. apply Z.leb_le. lia.
  - destruct Htext as [[-> _]| ->]; reflexivity.
Qed.

(** Every conforming record yields a block when the repository descriptor
    has a string path. *)
Lemma conforming_json_extract_block m repository_info path :
  Json.subscript repository_info "path" = Ok (JStr path) ->
  conforming m = true ->
  exists block, json_extract_block m repository_info = Ok block.
Proof.
  intros Hrepo. unfold conforming, json_extract_block.
  destruct m; try discriminate. simpl Json.subscript. simpl Json.get.
  destruct (Json.lookup "file_path" items) as [[| | | |fp| |]|]; try discriminate.
  destruct (Json.lookup "line_start" items) as [[| |ls| | | |]|]; try discriminate.
  destruct (Json.lookup "rule_id" items) as [[| | | |rid| |]|]; try discriminate.
  simpl. unfold encode. simpl.
  destruct (encode_error (fp +:+ ":" +:+ str_int ls)); [discriminate|]. simpl.
  rewrite Hrepo.
  intros H. apply andb_prop in H as [H1 H2].
  destruct (Json.lookup "line_end" items) as [[| |le| | | |]|];
    try discriminate;
    destruct (Json.lookup "matched_text" items) as [[| | | |text| |]|];
    try discriminate;
    try apply Z.leb_le in H1; simpl; unfold new_CodeBlock;
    match goal with
    | |- context [1 <=? ?n] => destruct (Z.leb_spec 1 n); [eauto | lia]
    end.
Qed.

(** A value that is not a dict fails in the [try] block and again in the
    [except] branch. *)
Lemma json_extract_block_not_dict m repository_info :
  Json.is_dict m = false ->
  (exists e, json_extract_block m repository_info = Raise e) /\
  Json.get m "file_path" (JStr "unknown")
  = Raise (Other "AttributeError"
             ("'" +:+ Json.type_name m +:+ "' object has no attribute 'get'")).
Proof.
  unfold json_extract_block.
  destruct m; simpl; try discriminate; intros _; split; eauto.
Qed.

Lemma get_dict m :
  Json.is_dict m = true ->
  Json.get m "file_path" (JStr "unknown") = Ok (file_path_or_unknown m).
Proof.
  destruct m; try discriminate. intros _. unfold file_path_or_unknown. simpl.
  destruct (Json.lookup "file_path" items); reflexivity.
Qed.

(** On dicts the loop cannot abort: it returns the kept blocks and writes
    the chunks of the skipped records. *)
Lemma json_extract_loop_dicts ms repository_info :
  Forall (fun m => Json.is_dict m = true) ms ->
  forall i blocks err,
    json_extract_loop i ms repository_info blocks err
    = ((err ++ concat (json_skipped i ms repository_info))%list,
       Ok (blocks ++ json_kept ms repository_info)%list).
Proof.
  induction 1 as [|m ms Hm _ IH]; intros i blocks err; simpl.
  - now rewrite !app_nil_r.
  - destruct (json_extract_block m repository_info) as [block|e].
    + rewrite IH. unfold append. now rewrite <- app_assoc.
    + rewrite (get_dict _ Hm), IH. simpl. now rewrite <- app_assoc.
Qed.

(** The loop stops at the first value that is not a dict. *)
Lemma json_extract_loop_abort pre v post repository_info :
  Forall (fun m => Json.is_dict m = true) pre ->
  Json.is_dict v = false ->
  forall i blocks err,
    json_extract_loop i (pre ++ v :: post) repository_info blocks err
    = ((err ++ concat (json_skipped i pre repository_info))%list,
       Raise (Other "AttributeError"
                ("'" +:+ Json.type_name v +:+ "' object has no attribute 'get'"))).
Proof.
  intros Hpre Hv. induction Hpre as [|m pre Hm _ IH]; intros i blocks err; simpl.
  - destruct (json_extract_block_not_dict v repository_info Hv) as [[e ->] ->].
    now rewrite app_nil_r.
  - destruct (json_extract_block m repository_info) as [block|e].
    + apply IH.
    + rewrite (get_dict _ Hm), IH. simpl. now rewrite <- app_assoc.
Qed.

(** A list either holds only dicts or splits at its first other value. *)
Lemma first_non_dict (ms : list json) :
  Forall (fun m => Json.is_dict m = true) ms \/
  exists pre v post,
    ms = (pre ++ v :: post)%list /\
    Forall (fun m => Json.is_dict m = true) pre /\
    Json.is_dict v = false.
Proof.
  induction ms as [|m ms IH]; [left; constructor|].
  destruct (Json.is_dict m) eqn:Hm.
  - destruct IH as [IH|(pre & v & post & -> & Hpre & Hv)].
    + left. now constructor.
    + right. exists (m :: pre), v, post. repeat split; auto.
  - right. exists [], m, ms. repeat split; auto.
Qed.

Lemma json_kept_In ms repository_info block :
  In block (json_kept ms repository_info) ->
  exists m, In m ms /\ json_extract_block m repository_info = Ok block.
Proof.
  induction ms as [|m ms IH]; simpl; [intros []|].
  destruct (json_extract_block m repository_info) as [b|e] eqn:E.
  - intros [<- | H]; [eauto|]. destruct (IH H) as (m' & ? & ?); eauto.
  - intros H. destruct (IH H) as (m' & ? & ?); eauto.
Qed.

Lemma json_kept_conforming ms repository_info path :
  Json.subscript repository_info "path" = Ok (JStr path) ->
  Forall2 (fun m block => json_extract_block m repository_info = Ok block)
    (List.filter conforming ms) (json_kept ms repository_info).
Proof.
  intros Hrepo. induction ms as [|m ms IH]; simpl; [constructor|].
  destruct (conforming m) eqn:C.
  - destruct (conforming_json_extract_block _ _ _ Hrepo C) as [b E].
    rewrite E. now constructor.
  - destruct (json_extract_block m repository_info) as [b|e] eqn:E; [|exact IH].
    apply json_extract_block_conforming in E. congruence.
Qed.

Lemma json_skipped_conforming ms repository_info path :
  Json.subscript repository_info "path" = Ok (JStr path) ->
  forall i,
    Forall2 (fun im chunk =>
               exists e,
                 json_extract_block (snd im) repository_info = Raise e /\
                 chunk = json_warning (fst im) (file_path_or_unknown (snd im)) e
                           :: print_exc e)
      (List.filter (fun im => negb (conforming (snd im))) (enumerate_from i ms))
      (json_skipped i ms repository_info).
Proof.
  intros Hrepo. induction ms as [|m ms IH]; intros i; simpl; [constructor|].
  destruct (conforming m) eqn:C; simpl.
  - destruct (conforming_json_extract_block _ _ _ Hrepo C) as [b E].
    rewrite E. apply IH.
  - destruct (json_extract_block m repository_info) as [b|e] eqn:E.
    + apply json_extract_block_conforming in E. congruence.
    + constructor; [|apply IH]. exists e. auto.
Qed.

Lemma json_kept_skipped_length ms repository_info : forall i,
  (length (json_kept ms repository_info)
   + length (json_skipped i ms repository_info) = length ms)%nat.
Proof.
  induction ms as [|m ms IH]; intros i; simpl; [reflexivity|].
  destruct (json_extract_block m repository_info); simpl;
    rewrite <- (IH (i + 1)); lia.
Qed.


Lemma json_extract_code_blocks_dicts records repository_info :
  Forall (fun m => Json.is_dict m = true) records ->
  json_extract_code_blocks (JList records) repository_info
  = (concat (json_skipped 0 records repository_info),
     Ok (json_kept records repository_info)).
Proof.
  intros H. unfold json_extract_code_blocks. simpl.
  now rewrite (json_extract_loop_dicts _ _ H).
Qed.

(** A call that returns blocks has iterated over dicts only. *)
Lemma json_extract_code_blocks_Ok_inv pattern_matches repository_info err blocks :
  json_extract_code_blocks pattern_matches repository_info = (err, Ok blocks) ->
  exists records,
    Json.iterate pattern_matches = Ok records /\
    Forall (fun m => Json.is_dict m = true) records /\
    blocks = json_kept records repository_info /\
    err = concat (json_skipped 0 records repository_info).
Proof.
  unfold json_extract_code_blocks.
  destruct (Json.iterate pattern_matches) as [records|e]; [|discriminate].
  intros E. exists records. split; [reflexivity|].
  destruct (first_non_dict records) as [H|(pre & v & post & -> & Hpre & Hv)].
  - rewrite (json_extract_loop_dicts _ _ H) in E. injection E as <- <-. auto.
  - rewrite (json_extract_loop_abort _ _ _ _ Hpre Hv) in E. discriminate.
Qed.

Lemma json_kept_line_count ms repository_info :
  Forall (fun b => 1 <= line_count b) (json_kept ms repository_info).
Proof.
  apply List.Forall_forall. intros b Hb.
  destruct (json_kept_In _ _ _ Hb) as (m & _ & E).
  destruct (json_extract_block_Ok_inv _ _ _ E)
    as (items & fp & ls & rid & le & text & repo
        & _ & _ & _ & _ & _ & _ & _ & _ & Hn & ->).
  exact Hn.
Qed.

Lemma group_lines_at_least_members blocks groups :
  group_duplicates blocks = Ok groups ->
  Forall (fun b => 1 <= line_count b) blocks ->
  Forall (fun g => 2 <= occurrence_count g /\
                   occurrence_count g <= total_lines g) groups.
Proof.
  intros E Hcount. apply List.Forall_forall. intros g Hg.
  destruct (group_duplicates_In _ _ _ E Hg) as (h & b0 & rest & Hf & Hlen & Hmk).
  destruct (make_group_Ok_inv _ _ _ Hmk) as (? & ? & _ & ->).
  cbn [occurrence_count total_lines]. split; [assumption|].
  replace (len (b0 :: rest)) with (len (map line_count (b0 :: rest)))
    by (unfold len; now rewrite length_map).
  apply sum_at_least_length. rewrite <- Hf.
  apply List.Forall_forall. intros n Hn.
  apply in_map_iff in Hn as (b & <- & Hb).
  apply filter_In in Hb as [Hb _].
  rewrite List.Forall_forall in Hcount. now apply Hcount.
Qed.

(** A text on the standard output is the dump of the analysis of the
    blocks extracted from a document that has both top-level keys. *)
Lemma json_main_stdout loaded text :
  Run.stdout (json_main loaded) = Some text ->
  exists doc repository_info pattern_matches records report,
    loaded = Ok doc /\
    Json.subscript doc "repository_info" = Ok repository_info /\
    Json.subscript doc "pattern_matches" = Ok pattern_matches /\
    Json.iterate pattern_matches = Ok records /\
    Forall (fun m => Json.is_dict m = true) records /\
    json_extract_code_blocks pattern_matches repository_info
    = (concat (json_skipped 0 records repository_info),
       Ok (json_kept records repository_info)) /\
    analyse (json_kept records repository_info) = Ok report /\
    json_dump report = Ok text /\
    json_main loaded
    = Run.mk (Some text) (concat (json_skipped 0 records repository_info)) 0.
Proof.
  unfold json_main, json_run.
  destruct loaded as [doc|e]; [|discriminate].
  destruct (Json.subscript doc "repository_info") as [repo|] eqn:Hr;
    [|discriminate].
  destruct (Json.subscript doc "pattern_matches") as [pms|] eqn:Hp;
    [|discriminate].
  destruct (json_extract_code_blocks pms repo) as [err [blocks|e]] eqn:Ex;
    [|discriminate].
  destruct (json_extract_code_blocks_Ok_inv _ _ _ _ Ex)
    as (records & Hit & Hd & -> & ->).
  simpl. destruct (analyse (json_kept records repo)) as [report|e] eqn:Ea;
    simpl; [|discriminate].
  destruct (json_dump report) as [out|e] eqn:Ed; simpl; [|discriminate].
  intros [= <-]. exists doc, repo, pms, records, report.
  repeat split; try assumption; try reflexivity.
Qed.

Lemma json_extract_block_missing_file_path items repository_info :
  Json.lookup "file_path" items = None ->
  json_extract_block (JDict items) repository_info = Raise (KeyError "file_path") /\
  file_path_or_unknown (JDict items) = JStr "unknown".
Proof.
  intros H. unfold json_extract_block, file_path_or_unknown. simpl.
  now rewrite H.
Qed.

Lemma json_extract_block_missing_line_start items repository_info v :
  Json.lookup "file_path" items = Some v ->
  Json.lookup "line_start" items = None ->
  json_extract_block (JDict items) repository_info = Raise (KeyError "line_start") /\
  file_path_or_unknown (JDict items) = v.
Proof.
  intros Hfp Hls. unfold json_extract_block, file_path_or_unknown. simpl.
  now rewrite Hfp, Hls.
Qed.

(** ** The claims about the extractor, on JSON input *)

(** C5 (amended). Given records that are JSON objects and a repository
    descriptor whose path is a string, the extractor returns, in input
    order, exactly one block for each conforming record (file_path and
    rule_id strings, line_start an integer, file_path:line_start encodable,
    line_end absent or an integer not before line_start, matched_text
    absent or a string), built from that record. For every other record it
    writes, in input order, the line
    "Warning: Failed to extract block <index> from <file_path>: <error>"
    followed by the traceback; the file path reads unknown and the error
    'file_path' when that key is missing, and the error reads 'line_start'
    when that key is missing. *)
Theorem json_extract_code_blocks_per_record records repository_info path :
  Forall (fun m => Json.is_dict m = true) records ->
  Json.subscript repository_info "path" = Ok (JStr path) ->
  exists blocks chunks,
    json_extract_code_blocks (JList records) repository_info
    = (concat chunks, Ok blocks) /\
    Forall2 (fun m block =>
               json_extract_block m repository_info = Ok block /\
               Json.subscript m "rule_id"
                 = Ok (JStr (code_block.pattern_id block)) /\
               Json.subscript m "file_path"
                 = Ok (JStr (file_path (location block))) /\
               Json.subscript m "line_start"
                 = Ok (JInt (line_start (location block))))
      (List.filter conforming records) blocks /\
    Forall2 (fun im chunk =>
               exists e v,
                 json_extract_block (snd im) repository_info = Raise e /\
                 Json.get (snd im) "file_path" (JStr "unknown") = Ok v /\
                 chunk
                 = ("Warning: Failed to extract block " +:+ str_int (fst im)
                      +:+ " from " +:+ py_str v +:+ ": " +:+ str_exn e)
                     :: print_exc e /\
                 (forall items,
                     snd im = JDict items ->
                     Json.lookup "file_path" items = None ->
                     chunk
                     = ("Warning: Failed to extract block " +:+ str_int (fst im)
                          +:+ " from unknown: 'file_path'")
                         :: print_exc (KeyError "file_path")) /\
                 (forall items fp,
                     snd im = JDict items ->
                     Json.lookup "file_path" items = Some (JStr fp) ->
                     Json.lookup "line_start" items = None ->
                     chunk
                     = ("Warning: Failed to extract block " +:+ str_int (fst im)
                          +:+ " from " +:+ fp +:+ ": 'line_start'")
                         :: print_exc (KeyError "line_start")))
      (List.filter (fun im => negb (conforming (snd im)))
         (enumerate_from 0 records))
      chunks.
Proof.
  intros Hd Hrepo.
  exists (json_kept records repository_info),
         (json_skipped 0 records repository_info).
  split; [now apply json_extract_code_blocks_dicts|]. split.
  - eapply Forall2_weaken; [|apply (json_kept_conforming _ _ _ Hrepo)].
    intros m block E. split; [assumption|].
    destruct (json_extract_block_Ok_inv _ _ _ E)
      as (items & fp & ls & rid & le & text & repo
          & -> & Hfp & Hls & Hrid & _ & _ & _ & _ & _ & ->).
    simpl. now rewrite Hfp, Hls, Hrid.
  - assert (Hdicts : Forall (fun im : Z * json => Json.is_dict (snd im) = true)
                       (List.filter (fun im => negb (conforming (snd im)))
                          (enumerate_from 0 records))).
    { apply List.Forall_forall. intros im Him.
      apply filter_In in Him as [Him _]. revert Him. clear -Hd.
      generalize 0.
      induction Hd as [|m ms Hm _ IH]; intros i; simpl; [intros []|].
      intros [<-|H]; [exact Hm|]. now apply (IH (i + 1)). }
    pose proof (json_skipped_conforming records _ _ Hrepo 0) as HF.
    revert Hdicts HF.
    generalize (List.filter (fun im : Z * json => negb (conforming (snd im)))
                  (enumerate_from 0 records)).
    generalize (json_skipped 0 records repository_info).
    intros chunks ims Hdicts HF.
    induction HF as [|[i m] chunk ims chunks (e & E & ->) _ IH];
      [constructor|].
    inversion Hdicts as [|? ? Hm Hrest]; subst.
    constructor; [|now apply IH]. simpl in *.
    exists e, (file_path_or_unknown m).
    split; [assumption|]. split; [now apply get_dict|].
    split; [reflexivity|]. split.
    + intros items -> Hnone.
      destruct (json_extract_block_missing_file_path items repository_info Hnone)
        as [E' ->].
      rewrite E in E'. injection E' as ->. reflexivity.
    + intros items fp -> Hfp Hnone.
      destruct (json_extract_block_missing_line_start items repository_info _
                  Hfp Hnone) as [E' ->].
      rewrite E in E'. injection E' as ->. reflexivity.
Qed.

(** C6. Every block the extractor emits has
    line_count = line_end - line_start + 1 >= 1, where line_end is the
    record's line_end, or line_start when the record omits it. The bound is
    the invariant the class CodeBlock keeps. *)
Theorem json_extracted_line_count
    pattern_matches repository_info err blocks block :
  json_extract_code_blocks pattern_matches repository_info = (err, Ok blocks) ->
  In block blocks ->
  line_count block
    = line_end (location block) - line_start (location block) + 1 /\
  1 <= line_count block /\
  exists records items,
    Json.iterate pattern_matches = Ok records /\
    In (JDict items) records /\
    json_extract_block (JDict items) repository_info = Ok block /\
    (Json.lookup "line_end" items = None ->
     line_end (location block) = line_start (location block)) /\
    (forall v, Json.lookup "line_end" items = Some v ->
               v = JInt (line_end (location block))).
Proof.
  intros Ex Hin.
  destruct (json_extract_code_blocks_Ok_inv _ _ _ _ Ex)
    as (records & Hit & _ & -> & _).
  destruct (json_kept_In _ _ _ Hin) as (m & Hm & E).
  destruct (json_extract_block_Ok_inv _ _ _ E)
    as (items & fp & ls & rid & le & text & repo
        & -> & _ & _ & _ & _ & Hle & _ & _ & Hn & ->).
  simpl. split; [reflexivity|]. split; [assumption|].
  exists records, items. repeat split; try assumption.
  - intros Hnone. destruct Hle as [[_ ->]|Hsome]; [reflexivity|congruence].
  - intros v Hv. destruct Hle as [[Hnone _]|Hsome]; congruence.
Qed.

(** C4. In every report that is written, potential_loc_reduction is the
    sum over the duplicate groups of
    total_lines - total_lines // occurrence_count (floor division, never by
    zero), and the summand of each group is at least 0 and at most the
    group's total_lines. *)
Theorem json_potential_loc_reduction loaded text :
  Run.stdout (json_main loaded) = Some text ->
  exists doc repository_info pattern_matches blocks report,
    loaded = Ok doc /\
    Json.subscript doc "repository_info" = Ok repository_info /\
    Json.subscript doc "pattern_matches" = Ok pattern_matches /\
    snd (json_extract_code_blocks pattern_matches repository_info) = Ok blocks /\
    analyse blocks = Ok report /\
    json_dump report = Ok text /\
    ScanMetrics.potential_loc_reduction (Report.metrics report)
      = sum (map loc_saving (Report.duplicate_groups report)) /\
    Forall (fun g =>
              loc_reduction g = Ok (loc_saving g) /\
              0 <= loc_saving g <= total_lines g)
      (Report.duplicate_groups report).
Proof.
  intros Hout.
  destruct (json_main_stdout _ _ Hout)
    as (doc & repo & pms & records & report
        & -> & Hr & Hp & _ & _ & Hex & Ha & Hd & _).
  exists doc, repo, pms, (json_kept records repo), report.
  repeat (split; [first [assumption | reflexivity | now rewrite Hex]|]).
  destruct (analyse_spec (json_kept records repo)) as (groups & E & Ha').
  rewrite Ha in Ha'. injection Ha' as ->. simpl.
  split; [reflexivity|].
  eapply List.Forall_impl;
    [|apply (group_lines_at_least_members _ _ E (json_kept_line_count _ _))].
  simpl. intros g [H2 Ht]. split.
  - unfold loc_reduction, floordiv.
    destruct (Z.eqb_spec (occurrence_count g) 0); [lia|reflexivity].
  - apply loc_saving_bounds; lia.
Qed.


(** ** Further properties of the run on JSON input *)

Lemma json_kept_filter_conforming ms repository_info path :
  Json.subscript repository_info "path" = Ok (JStr path) ->
  json_kept (List.filter conforming ms) repository_info
  = json_kept ms repository_info /\
  json_skipped 0 (List.filter conforming ms) repository_info = [].
Proof.
  intros Hrepo. split.
  - induction ms as [|m ms IH]; simpl; [reflexivity|].
    destruct (conforming m) eqn:C; simpl.
    + destruct (json_extract_block m repository_info); now rewrite IH.
    + destruct (json_extract_block m repository_info) as [b|e] eqn:E; [|exact IH].
      apply json_extract_block_conforming in E. congruence.
  - generalize 0. induction ms as [|m ms IH]; intros i; simpl; [reflexivity|].
    destruct (conforming m) eqn:C; simpl; [|apply IH].
    destruct (conforming_json_extract_block _ _ _ Hrepo C) as [b ->].
    apply IH.
Qed.

Lemma filter_dicts (f : json -> bool) (ms : list json) :
  Forall (fun m => Json.is_dict m = true) ms ->
  Forall (fun m => Json.is_dict m = true) (List.filter f ms).
Proof.
  induction 1 as [|m ms Hm _ IH]; simpl; [constructor|].
  destruct (f m); [constructor|]; assumption.
Qed.

(** X1. When every record is a JSON object, each record ends as exactly
    one block or exactly one warning with its traceback: the call returns,
    and the numbers of blocks and of warnings add up to the number of
    records, whatever the repository descriptor is. *)
Theorem json_extract_accounts_for_every_record records repository_info :
  Forall (fun m => Json.is_dict m = true) records ->
  exists blocks chunks,
    json_extract_code_blocks (JList records) repository_info
    = (concat chunks, Ok blocks) /\
    len blocks + len chunks = len records /\
    Forall (fun chunk =>
              exists i v e,
                chunk
                = ("Warning: Failed to extract block " +:+ str_int i
                     +:+ " from " +:+ py_str v +:+ ": " +:+ str_exn e)
                    :: print_exc e)
      chunks.
Proof.
  intros Hd.
  exists (json_kept records repository_info),
         (json_skipped 0 records repository_info).
  split; [now apply json_extract_code_blocks_dicts|]. split.
  - unfold len.
    rewrite <- (json_kept_skipped_length records repository_info 0). lia.
  - clear Hd. generalize 0.
    induction records as [|m ms IH]; intros i; simpl; [constructor|].
    destruct (json_extract_block m repository_info) as [b|e]; [apply IH|].
    constructor; [|apply IH]. exists i, (file_path_or_unknown m), e. reflexivity.
Qed.

(** X3. Skipped records leave no trace in the blocks: given JSON objects
    and a repository descriptor whose path is a string, the records that
    conform yield, on their own, the same blocks as the whole input and an
    empty error stream. *)
Theorem json_failed_records_are_isolated records repository_info path :
  Forall (fun m => Json.is_dict m = true) records ->
  Json.subscript repository_info "path" = Ok (JStr path) ->
  exists blocks,
    snd (json_extract_code_blocks (JList records) repository_info) = Ok blocks /\
    json_extract_code_blocks (JList (List.filter conforming records))
      repository_info
    = ([], Ok blocks).
Proof.
  intros Hd Hrepo. exists (json_kept records repository_info).
  rewrite (json_extract_code_blocks_dicts _ _ Hd).
  rewrite (json_extract_code_blocks_dicts _ _ (filter_dicts conforming _ Hd)).
  destruct (json_kept_filter_conforming records _ _ Hrepo) as [-> ->].
  split; reflexivity.
Qed.

(** X14. How a run on a loaded document ends. When repository_info is
    missing the run writes nothing to the standard output, reports the
    missing key and exits with code 1, and likewise for pattern_matches
    when repository_info is there. When both are there and pattern_matches
    is a list of JSON objects, extraction and analysis cannot fail: the run
    exits with code 0, having written the dump of the report, unless the
    dump itself raises, and the error stream holds the warnings and
    tracebacks of the skipped records. *)
Theorem json_main_outcome (doc : json) :
  (forall items,
      doc = JDict items ->
      Json.lookup "repository_info" items = None ->
      json_main (Ok doc)
      = Run.mk None
          ("Error in extraction pipeline: 'repository_info'"
             :: print_exc (KeyError "repository_info")) 1) /\
  (forall items repository_info,
      doc = JDict items ->
      Json.lookup "repository_info" items = Some repository_info ->
      Json.lookup "pattern_matches" items = None ->
      json_main (Ok doc)
      = Run.mk None
          ("Error in extraction pipeline: 'pattern_matches'"
             :: print_exc (KeyError "pattern_matches")) 1) /\
  (forall repository_info records,
      Json.subscript doc "repository_info" = Ok repository_info ->
      Json.subscript doc "pattern_matches" = Ok (JList records) ->
      Forall (fun m => Json.is_dict m = true) records ->
      exists blocks chunks report,
        json_extract_code_blocks (JList records) repository_info
        = (concat chunks, Ok blocks) /\
        analyse blocks = Ok report /\
        Report.code_blocks report = blocks /\
        json_main (Ok doc)
        = match json_dump report with
          | Ok text => Run.mk (Some text) (concat chunks) 0
          | Raise e =>
              Run.mk None
                (concat chunks
                   ++ ("Error in extraction pipeline: " +:+ str_exn e)
                        :: print_exc e)%list
                1
          end).
Proof.
  split; [|split].
  - intros items -> H. unfold json_main, json_run. simpl. now rewrite H.
  - intros items repo -> Hr Hp. unfold json_main, json_run. simpl.
    now rewrite Hr, Hp.
  - intros repo records Hr Hp Hd.
    destruct (analyse_spec (json_kept records repo)) as (groups & _ & Ha).
    eexists. eexists. eexists.
    split; [now apply json_extract_code_blocks_dicts|].
    split; [exact Ha|]. split; [reflexivity|].
    unfold json_main, json_run. rewrite Hr, Hp.
    rewrite (json_extract_code_blocks_dicts _ _ Hd). simpl. rewrite Ha. simpl.
    destruct (json_dump _); reflexivity.
Qed.

(** X15. The exit code of a run is 0 or 1. It is 0 exactly when a text is
    written to the standard output, and exactly when the document was
    loaded, has both top-level keys, pattern_matches can be iterated and
    yields JSON objects only, and the dump of the report does not raise. *)
Theorem json_main_exit_code (loaded : result json) :
  (Run.exit_code (json_main loaded) = 0 \/
   Run.exit_code (json_main loaded) = 1) /\
  (Run.exit_code (json_main loaded) = 0 <->
   Run.stdout (json_main loaded) <> None) /\
  (Run.exit_code (json_main loaded) = 0 <->
   exists doc repository_info pattern_matches records report text,
     loaded = Ok doc /\
     Json.subscript doc "repository_info" = Ok repository_info /\
     Json.subscript doc "pattern_matches" = Ok pattern_matches /\
     Json.iterate pattern_matches = Ok records /\
     Forall (fun m => Json.is_dict m = true) records /\
     analyse (json_kept records repository_info) = Ok report /\
     json_dump report = Ok text).
Proof.
  assert (Hcases : (exists text, Run.stdout (json_main loaded) = Some text /\
                                 Run.exit_code (json_main loaded) = 0) \/
                   (Run.stdout (json_main loaded) = None /\
                    Run.exit_code (json_main loaded) = 1)).
  { unfold json_main. destruct (json_run loaded) as [err [text|e]]; simpl; eauto. }
  split; [|split].
  - destruct Hcases as [(text & _ & ->)|[_ ->]]; auto.
  - destruct Hcases as [(text & -> & ->)|[-> ->]]; split;
      try discriminate; auto. intros H. now contradiction H.
  - split.
    + intros H0. destruct Hcases as [(text & Hout & _)|[_ H1]];
        [|rewrite H1 in H0; discriminate].
      destruct (json_main_stdout _ _ Hout)
        as (doc & repo & pms & records & report
            & -> & Hr & Hp & Hit & Hd & _ & Ha & Hdump & _).
      exists doc, repo, pms, records, report, text. auto 10.
    + intros (doc & repo & pms & records & report & text
              & -> & Hr & Hp & Hit & Hd & Ha & Hdump).
      unfold json_main, json_run, json_extract_code_blocks.
      rewrite Hr, Hp, Hit, (json_extract_loop_dicts _ _ Hd). simpl.
      rewrite Ha. simpl. now rewrite Hdump.
Qed.

(** X21. A record that is not a JSON object makes the whole batch fail:
    the [except] branch itself raises on it, the extractor returns no
    block, not even those of the records before it, and the run ends with
    exit code 1 and nothing on the standard output. *)
Theorem json_non_object_record_aborts doc repository_info pre v post :
  Json.subscript doc "repository_info" = Ok repository_info ->
  Json.subscript doc "pattern_matches" = Ok (JList (pre ++ v :: post)) ->
  Forall (fun m => Json.is_dict m = true) pre ->
  Json.is_dict v = false ->
  exists chunks,
    json_extract_code_blocks (JList (pre ++ v :: post)) repository_info
    = (concat chunks,
       Raise (Other "AttributeError"
                ("'" +:+ Json.type_name v +:+ "' object has no attribute 'get'"))) /\
    json_main (Ok doc)
    = Run.mk None
        (concat chunks
           ++ ("Error in extraction pipeline: '" +:+ Json.type_name v
                 +:+ "' object has no attribute 'get'")
                :: print_exc
                     (Other "AttributeError"
                        ("'" +:+ Json.type_name v
                           +:+ "' object has no attribute 'get'")))%list
        1.
Proof.
  intros Hr Hp Hpre Hv. exists (json_skipped 0 pre repository_info).
  assert (E : json_extract_code_blocks (JList (pre ++ v :: post)) repository_info
              = (concat (json_skipped 0 pre repository_info),
                 Raise (Other "AttributeError"
                          ("'" +:+ Json.type_name v
                             +:+ "' object has no attribute 'get'")))).
  { unfold json_extract_code_blocks. simpl.
    now rewrite (json_extract_loop_abort _ _ _ _ Hpre Hv). }
  split; [exact E|].
  unfold json_main, json_run. rewrite Hr, Hp, E. reflexivity.
Qed.

(** X22. On records that have the types of the input schema the extractor
    on JSON values agrees with the extractor on typed records, up to the
    invariant of the class: when every string can be encoded, it returns
    the blocks of the typed extractor whose line count is at least 1. *)
Theorem json_extract_code_blocks_agrees pattern_matches repository_info :
  (forall s, encode_error s = None) ->
  snd (json_extract_code_blocks (JList (map record_json pattern_matches))
         (repository_json repository_info))
  = Ok (List.filter (fun b => 1 <=? line_count b)
          (fst (extract_code_blocks pattern_matches repository_info))).
Proof.
  intros Henc.
  assert (Hone : forall m,
             json_extract_block (record_json m) (repository_json repository_info)
             = match extract_block m repository_info with
               | Ok b =>
                   if 1 <=? line_count b then Ok b
                   else Raise (Other "ValidationError"
                                 (validation_error "CodeBlock"))
               | Raise e => Raise e
               end).
  { intros [[rid|] [fp|] [ls|] [le|] [text|]];
      destruct repository_info as [[p|]];
      unfold json_extract_block, extract_block, record_json, repository_json,
        encode; simpl; rewrite ?Henc; simpl; try reflexivity. }
  rewrite extract_code_blocks_eq; simpl.
  rewrite json_extract_code_blocks_dicts.
  2:{ clear. induction pattern_matches; simpl; constructor; auto. }
  simpl. f_equal.
  induction pattern_matches as [|m ms IH]; simpl; [reflexivity|].
  rewrite Hone. destruct (extract_block m repository_info) as [b|e]; [|exact IH].
  simpl. destruct (1 <=? line_count b); now rewrite IH.
Qed.


(** X23. What holds of the typed run holds of the run on JSON input: in
    every report that is written the blocks satisfy the invariant of their
    class, every group is tagged exact_match and has at least two members
    and at least as many lines, the counters exact_duplicates and
    quick_wins are 0, the block and group counters are the lengths of the
    lists, and there are at most half as many groups as blocks. *)
Theorem json_report_facts loaded text :
  Run.stdout (json_main loaded) = Some text ->
  exists blocks report,
    analyse blocks = Ok report /\
    json_dump report = Ok text /\
    Report.code_blocks report = blocks /\
    Forall (fun b => 1 <= line_count b) blocks /\
    Forall (fun g =>
              similarity_method g = "exact_match" /\
              2 <= occurrence_count g /\
              occurrence_count g <= total_lines g)
      (Report.duplicate_groups report) /\
    ScanMetrics.exact_duplicates (Report.metrics report) = 0 /\
    ScanMetrics.quick_wins (Report.metrics report) = 0 /\
    ScanMetrics.total_code_blocks (Report.metrics report) = len blocks /\
    ScanMetrics.total_duplicate_groups (Report.metrics report)
      = len (Report.duplicate_groups report) /\
    2 * len (Report.duplicate_groups report) <= len blocks.
Proof.
  intros Hout.
  destruct (json_main_stdout _ _ Hout)
    as (doc & repo & pms & records & report
        & _ & _ & _ & _ & _ & _ & Ha & Hd & _).
  exists (json_kept records repo), report.
  split; [assumption|]. split; [assumption|].
  destruct (analyse_spec (json_kept records repo)) as (groups & E & Ha').
  rewrite Ha in Ha'. injection Ha' as ->. simpl.
  split; [reflexivity|]. split; [apply json_kept_line_count|].
  assert (Htag : Forall (fun g => similarity_method g = "exact_match") groups).
  { apply List.Forall_forall. intros g Hg.
    destruct (group_duplicates_In _ _ _ E Hg) as (h & b0 & rest & _ & _ & Hmk).
    now destruct (make_group_Ok_inv _ _ _ Hmk) as (? & ? & _ & ->). }
  pose proof (group_lines_at_least_members _ _ E (json_kept_line_count _ _))
    as Hlines.
  split.
  { rewrite List.Forall_forall in *. intros g Hg.
    split; [now apply Htag | now apply Hlines]. }
  split.
  { rewrite filter_none; [reflexivity|]. intros g Hg.
    rewrite List.Forall_forall in Htag. now rewrite (Htag g Hg). }
  split.
  { rewrite filter_none; [reflexivity|]. intros s Hs.
    now apply in_map_iff in Hs as (g & <- & _). }
  split; [reflexivity|]. split; [reflexivity|].
  now destruct (group_sizes_le _ _ E).
Qed.

End Pipeline.

(** ** The properties at the sample inputs *)


(** C1, at the scenario of the specification: the report has one duplicate
    group, tagged exact_match, and its metrics count no exact duplicate. *)
Theorem exact_duplicates_misses_the_group :
  exists report g,
    Process.stdout
      (main Sample.digest Sample.content_hash Sample.impact_score Sample.scenario)
      = Some report /\
    Report.duplicate_groups report = [g] /\
    similarity_method g = "exact_match" /\
    member_block_ids g = ["cb_a.js:10"; "cb_b.js:22"] /\
    ScanMetrics.total_duplicate_groups (Report.metrics report) = 1 /\
    ScanMetrics.exact_duplicates (Report.metrics report) = 0.
Proof.
  eexists. eexists. split; [vm_compute; reflexivity|].
  vm_compute. repeat split; reflexivity.
Qed.

Lemma quick_wins_is_zero_witness :
  exists report,
    Process.stdout
      (main Sample.digest Sample.content_hash Sample.impact_score Sample.scenario)
      = Some report /\
    length (Report.suggestions report) = 1%nat /\
    Forall (fun s => complexity s = "simple") (Report.suggestions report) /\
    ScanMetrics.quick_wins (Report.metrics report) = 0.
Proof.
  eexists. split; [vm_compute; reflexivity|]. split; [reflexivity|].
  apply (quick_wins_is_zero Sample.digest Sample.content_hash Sample.impact_score
           Sample.scenario).
  vm_compute. reflexivity.
Defined.

(** ** The further properties at the sample inputs *)


(** The warnings of that run: the complete record fails on path, the other
    one on its own missing key, which is looked up first. *)
Example pathless_warnings :
  snd (extract_code_blocks Sample.digest
         [Sample.match_a; Edge.no_file_path] Edge.no_path)
  = ["Warning: Failed to extract block 0 from a.js: 'path'";
     "Warning: Failed to extract block 1 from unknown: 'file_path'"].
Proof. vm_compute. reflexivity. Qed.

Lemma extracted_block_fields_witness :
  exists block,
    In block (fst (extract_code_blocks Sample.digest
                     [Sample.match_a; Sample.match_c] Sample.repository)) /\
    relative_path block = file_path (location block) /\
    code_block.language block = "javascript" /\
    code_block.category block = category_of (code_block.pattern_id block) /\
    In (code_block.category block) categories /\
    RepositoryInfo.path Sample.repository = Some (repository_path block) /\
    exists m,
      In m [Sample.match_a; Sample.match_c] /\
      PatternMatch.rule_id m = Some (code_block.pattern_id block) /\
      PatternMatch.file_path m = Some (file_path (location block)) /\
      source_code block = get (PatternMatch.matched_text m) "".
Proof.
  eexists. split; [vm_compute; left; reflexivity|].
  apply (extracted_block_fields Sample.digest
           [Sample.match_a; Sample.match_c] Sample.repository).
  vm_compute. left. reflexivity.
Defined.

Lemma duplicates_are_grouped_witness :
  2 <= len (List.filter (has_hash Sample.content_hash "if (x) return null;")
              (fst (extract_code_blocks Sample.digest
                      [Sample.match_a; Sample.match_b; Sample.match_c]
                      Sample.repository))) /\
  exists groups g,
    group_duplicates Sample.content_hash
      (fst (extract_code_blocks Sample.digest
              [Sample.match_a; Sample.match_b; Sample.match_c]
              Sample.repository))
    = Ok groups /\
    In g groups /\
    group_id g = "dg_" +:+ slice_to 12 "if (x) return null;" /\
    member_block_ids g
    = map block_id
        (List.filter (has_hash Sample.content_hash "if (x) return null;")
           (fst (extract_code_blocks Sample.digest
                   [Sample.match_a; Sample.match_b; Sample.match_c]
                   Sample.repository))) /\
    occurrence_count g
    = len (List.filter (has_hash Sample.content_hash "if (x) return null;")
             (fst (extract_code_blocks Sample.digest
                     [Sample.match_a; Sample.match_b; Sample.match_c]
                     Sample.repository))).
Proof.
  assert (H : 2 <= len (List.filter
                          (has_hash Sample.content_hash "if (x) return null;")
                          (fst (extract_code_blocks Sample.digest
                                  [Sample.match_a; Sample.match_b; Sample.match_c]
                                  Sample.repository))))
    by (vm_compute; discriminate).
  split; [exact H|].
  exact (duplicates_are_grouped Sample.content_hash _ _ H).
Defined.

Lemma group_attributes_witness :
  exists groups g,
    group_duplicates Sample.content_hash
      (fst (extract_code_blocks Sample.digest
              [Sample.match_a; Sample.match_b; Sample.match_c]
              Sample.repository))
    = Ok groups /\
    In g groups /\
    exists h b0 rest,
      group_id g = "dg_" +:+ slice_to 12 h /\
      member_block_ids g = map block_id (b0 :: rest) /\
      List.filter (has_hash Sample.content_hash h)
        (fst (extract_code_blocks Sample.digest
                [Sample.match_a; Sample.match_b; Sample.match_c]
                Sample.repository))
      = b0 :: rest /\
      duplicate_group.pattern_id g = code_block.pattern_id b0 /\
      duplicate_group.category g = code_block.category b0 /\
      duplicate_group.language g = code_block.language b0 /\
      affected_repositories g = [repository_path b0] /\
      total_lines g = sum (map line_count (b0 :: rest)) /\
      similarity_method g = "exact_match".
Proof.
  eexists. eexists. split; [vm_compute; reflexivity|].
  split; [left; reflexivity|].
  eapply (group_attributes Sample.content_hash).
  - vm_compute. reflexivity.
  - left. reflexivity.
Defined.

Lemma affected_files_are_member_paths_witness :
  exists groups g,
    group_duplicates Sample.content_hash
      (fst (extract_code_blocks Sample.digest
              [Sample.match_a; Sample.match_b; Sample.match_c]
              Sample.repository))
    = Ok groups /\
    In g groups /\
    exists h,
      member_block_ids g
      = map block_id
          (List.filter (has_hash Sample.content_hash h)
             (fst (extract_code_blocks Sample.digest
                     [Sample.match_a; Sample.match_b; Sample.match_c]
                     Sample.repository))) /\
      List.NoDup (affected_files g) /\
      (forall f, In f (affected_files g) <->
                 exists b,
                   In b (fst (extract_code_blocks Sample.digest
                                [Sample.match_a; Sample.match_b; Sample.match_c]
                                Sample.repository)) /\
                   Sample.content_hash b = h /\
                   file_path (location b) = f) /\
      1 <= len (affected_files g) <= occurrence_count g.
Proof.
  eexists. eexists. split; [vm_compute; reflexivity|].
  split; [left; reflexivity|].
  eapply (affected_files_are_member_paths Sample.content_hash).
  - vm_compute. reflexivity.
  - left. reflexivity.
Defined.

Lemma report_metrics_are_consistent_witness :
  exists report,
    Process.stdout
      (main Sample.digest Sample.content_hash Sample.impact_score Sample.scenario)
    = Some report /\
    let m := Report.metrics report in
    ScanMetrics.total_code_blocks m = len (Report.code_blocks report) /\
    ScanMetrics.total_duplicate_groups m = len (Report.duplicate_groups report) /\
    ScanMetrics.total_suggestions m = len (Report.suggestions report) /\
    ScanMetrics.total_suggestions m = ScanMetrics.total_duplicate_groups m /\
    2 * ScanMetrics.total_duplicate_groups m <= ScanMetrics.total_code_blocks m /\
    ScanMetrics.structural_duplicates m = 0 /\
    ScanMetrics.semantic_duplicates m = 0 /\
    ScanMetrics.total_duplicated_lines m
      = sum (map total_lines (Report.duplicate_groups report)) /\
    0 <= ScanMetrics.high_priority_suggestions m <= ScanMetrics.total_suggestions m.
Proof.
  eexists. split; [vm_compute; reflexivity|].
  apply (report_metrics_are_consistent Sample.digest Sample.content_hash
           Sample.impact_score Sample.scenario).
  vm_compute. reflexivity.
Defined.

Lemma potential_loc_reduction_bounds_witness :
  exists report,
    Process.stdout
      (main Sample.digest Sample.content_hash Sample.impact_score Sample.scenario)
    = Some report /\
    Forall (fun b => line_start (location b) <= line_end (location b))
      (Report.code_blocks report) /\
    Forall (fun g => occurrence_count g <= total_lines g)
      (Report.duplicate_groups report) /\
    0 <= ScanMetrics.potential_loc_reduction (Report.metrics report)
      <= ScanMetrics.total_duplicated_lines (Report.metrics report).
Proof.
  eexists. split; [vm_compute; reflexivity|].
  assert (H : Forall (fun b => line_start (location b) <= line_end (location b))
                [ mkCodeBlock "cb_a.js:10" "validation"
                    (mkSourceLocation "a.js" 10 10) "a.js"
                    "if (x) return null;" "javascript" "validator" "/repo" 1;
                  mkCodeBlock "cb_b.js:22" "validation"
                    (mkSourceLocation "b.js" 22 22) "b.js"
                    "if (x) return null;" "javascript" "validator" "/repo" 1;
                  mkCodeBlock "cb_c.js:5" "my-own-rule"
                    (mkSourceLocation "c.js" 5 6) "c.js"
                    "const y = 1;" "javascript" "utility" "/repo" 2 ])
    by (repeat constructor; simpl; lia).
  split; [exact H|].
  apply (potential_loc_reduction_bounds Sample.digest Sample.content_hash
           Sample.impact_score Sample.scenario).
  - vm_compute. reflexivity.
  - exact H.
Defined.

Lemma no_duplicates_no_groups_witness :
  exists report,
    Process.stdout
      (main Sample.digest Sample.content_hash Sample.impact_score Edge.distinct)
    = Some report /\
    List.NoDup (map Sample.content_hash (Report.code_blocks report)) /\
    Report.duplicate_groups report = [] /\
    Report.suggestions report = [] /\
    ScanMetrics.total_duplicate_groups (Report.metrics report) = 0 /\
    ScanMetrics.total_duplicated_lines (Report.metrics report) = 0 /\
    ScanMetrics.potential_loc_reduction (Report.metrics report) = 0 /\
    ScanMetrics.total_suggestions (Report.metrics report) = 0 /\
    ScanMetrics.high_priority_suggestions (Report.metrics report) = 0.
Proof.
  eexists. split; [vm_compute; reflexivity|].
  assert (H : List.NoDup ["if (x) return null;"; "const y = 1;"]).
  { apply NoDup_ListNoDup, (bool_decide_unpack _). vm_compute. exact I. }
  split; [exact H|].
  apply (no_duplicates_no_groups Sample.digest Sample.content_hash
           Sample.impact_score Edge.distinct).
  - vm_compute. reflexivity.
  - exact H.
Defined.


(** ** The run on JSON input at the sample documents *)

Abbreviation doc_extract_block :=
  (json_extract_block Sample.digest Doc.encode_error Doc.py_repr
     Doc.validation_error).
Abbreviation doc_extract_code_blocks :=
  (json_extract_code_blocks Sample.digest Doc.encode_error Doc.py_repr
     Doc.validation_error Doc.print_exc).
Abbreviation doc_main :=
  (json_main Sample.digest Sample.content_hash Sample.impact_score
     Doc.encode_error Doc.py_repr Doc.validation_error Doc.print_exc
     Doc.json_dump).
Abbreviation doc_analyse :=
  (analyse Sample.content_hash Sample.impact_score).

(** What the extractor writes for a null line_end and for a missing
    line_start, between two records that it keeps. *)
Example doc_warnings :
  doc_extract_code_blocks
    (JList [Doc.record_a; Doc.null_line_end; Doc.no_line_start; Doc.record_c])
    Doc.repository
  = (["Warning: Failed to extract block 1 from d.js: 1 validation error for SourceLocation";
      "Traceback (most recent call last):";
      "Warning: Failed to extract block 2 from e.js: 'line_start'";
      "Traceback (most recent call last):"],
     Ok [ mkCodeBlock "cb_a.js:10" "validation"
            (mkSourceLocation "a.js" 10 10) "a.js"
            "if (x) return null;" "javascript" "validator" "/repo" 1;
          mkCodeBlock "cb_c.js:5" "my-own-rule"
            (mkSourceLocation "c.js" 5 6) "c.js"
            "const y = 1;" "javascript" "utility" "/repo" 2 ]).
Proof. vm_compute. reflexivity. Qed.

Lemma json_extract_code_blocks_per_record_witness :
  Forall (fun m => Json.is_dict m = true)
    [Doc.record_a; Doc.null_line_end; Doc.no_line_start; Doc.record_c] /\
  Json.subscript Doc.repository "path" = Ok (JStr "/repo") /\
  exists blocks chunks,
    doc_extract_code_blocks
      (JList [Doc.record_a; Doc.null_line_end; Doc.no_line_start; Doc.record_c])
      Doc.repository
    = (concat chunks, Ok blocks) /\
    Forall2 (fun m block =>
               doc_extract_block m Doc.repository = Ok block /\
               Json.subscript m "rule_id"
                 = Ok (JStr (code_block.pattern_id block)) /\
               Json.subscript m "file_path"
                 = Ok (JStr (file_path (location block))) /\
               Json.subscript m "line_start"
                 = Ok (JInt (line_start (location block))))
      (List.filter (conforming Doc.encode_error)
         [Doc.record_a; Doc.null_line_end; Doc.no_line_start; Doc.record_c])
      blocks /\
    Forall2 (fun im chunk =>
               exists e v,
                 doc_extract_block (snd im) Doc.repository = Raise e /\
                 Json.get (snd im) "file_path" (JStr "unknown") = Ok v /\
                 chunk
                 = ("Warning: Failed to extract block " +:+ str_int (fst im)
                      +:+ " from " +:+ py_str Doc.py_repr v +:+ ": " +:+ str_exn e)
                     :: Doc.print_exc e /\
                 (forall items,
                     snd im = JDict items ->
                     Json.lookup "file_path" items = None ->
                     chunk
                     = ("Warning: Failed to extract block " +:+ str_int (fst im)
                          +:+ " from unknown: 'file_path'")
                         :: Doc.print_exc (KeyError "file_path")) /\
                 (forall items fp,
                     snd im = JDict items ->
                     Json.lookup "file_path" items = Some (JStr fp) ->
                     Json.lookup "line_start" items = None ->
                     chunk
                     = ("Warning: Failed to extract block " +:+ str_int (fst im)
                          +:+ " from " +:+ fp +:+ ": 'line_start'")
                         :: Doc.print_exc (KeyError "line_start")))
      (List.filter (fun im => negb (conforming Doc.encode_error (snd im)))
         (enumerate_from 0
            [Doc.record_a; Doc.null_line_end; Doc.no_line_start; Doc.record_c]))
      chunks.
Proof.
  assert (Hd : Forall (fun m => Json.is_dict m = true)
                 [Doc.record_a; Doc.null_line_end; Doc.no_line_start;
                  Doc.record_c])
    by (repeat constructor).
  split; [exact Hd|]. split; [reflexivity|].
  exact (json_extract_code_blocks_per_record Sample.digest Doc.encode_error
           Doc.py_repr Doc.validation_error Doc.print_exc _ Doc.repository
           "/repo" Hd eq_refl).
Defined.

(** C5, the counterexample: a record that has rule_id, file_path and
    line_start, and whose line_end is null, yields no block; neither does a
    complete record when the repository descriptor has no path. *)
Lemma json_three_keys_are_not_enough :
  Json.subscript Doc.null_line_end "rule_id" = Ok (JStr "validation") /\
  Json.subscript Doc.null_line_end "file_path" = Ok (JStr "d.js") /\
  Json.subscript Doc.null_line_end "line_start" = Ok (JInt 10) /\
  snd (doc_extract_code_blocks (JList [Doc.null_line_end]) Doc.repository)
  = Ok [] /\
  length (fst (doc_extract_code_blocks (JList [Doc.null_line_end])
                 Doc.repository)) = 2%nat /\
  snd (doc_extract_code_blocks (JList [Doc.record_a]) (JDict [])) = Ok [].
Proof. vm_compute. repeat split; reflexivity. Qed.

Lemma json_extracted_line_count_witness :
  exists err blocks block,
    doc_extract_code_blocks
      (JList [Doc.record_a; Doc.null_line_end; Doc.record_c]) Doc.repository
    = (err, Ok blocks) /\
    In block blocks /\
    line_count block
      = line_end (location block) - line_start (location block) + 1 /\
    1 <= line_count block /\
    exists records items,
      Json.iterate (JList [Doc.record_a; Doc.null_line_end; Doc.record_c])
      = Ok records /\
      In (JDict items) records /\
      doc_extract_block (JDict items) Doc.repository = Ok block /\
      (Json.lookup "line_end" items = None ->
       line_end (location block) = line_start (location block)) /\
      (forall v, Json.lookup "line_end" items = Some v ->
                 v = JInt (line_end (location block))).
Proof.
  eexists. eexists. eexists.
  split; [vm_compute; reflexivity|]. split; [left; reflexivity|].
  eapply (json_extracted_line_count Sample.digest Doc.encode_error Doc.py_repr
            Doc.validation_error Doc.print_exc).
  - vm_compute. reflexivity.
  - left. reflexivity.
Defined.

Lemma json_potential_loc_reduction_witness :
  Run.stdout (doc_main (Ok Doc.scenario)) = Some "{}" /\
  exists doc repository_info pattern_matches blocks report,
    Ok Doc.scenario = Ok doc /\
    Json.subscript doc "repository_info" = Ok repository_info /\
    Json.subscript doc "pattern_matches" = Ok pattern_matches /\
    snd (doc_extract_code_blocks pattern_matches repository_info) = Ok blocks /\
    doc_analyse blocks = Ok report /\
    Doc.json_dump report = Ok "{}" /\
    ScanMetrics.potential_loc_reduction (Report.metrics report)
      = sum (map loc_saving (Report.duplicate_groups report)) /\
    Forall (fun g =>
              loc_reduction g = Ok (loc_saving g) /\
              0 <= loc_saving g <= total_lines g)
      (Report.duplicate_groups report).
Proof.
  assert (H : Run.stdout (doc_main (Ok Doc.scenario)) = Some "{}")
    by (vm_compute; reflexivity).
  split; [exact H|].
  exact (json_potential_loc_reduction Sample.digest Sample.content_hash
           Sample.impact_score Doc.encode_error Doc.py_repr Doc.validation_error
           Doc.print_exc Doc.json_dump _ _ H).
Defined.

(** The report of the scenario has one group of two one-line blocks: the
    estimate is 2 - 2 // 2 = 1. *)
Example doc_scenario_metrics :
  exists report,
    doc_analyse
      (match snd (doc_extract_code_blocks
                    (JList [Doc.record_a; Doc.record_b; Doc.record_c])
                    Doc.repository) with
       | Ok blocks => blocks
       | Raise _ => []
       end)
    = Ok report /\
    map total_lines (Report.duplicate_groups report) = [2] /\
    map occurrence_count (Report.duplicate_groups report) = [2] /\
    ScanMetrics.potential_loc_reduction (Report.metrics report) = 1.
Proof. eexists. split; [vm_compute; reflexivity|]. vm_compute. auto. Qed.

Lemma json_extract_accounts_for_every_record_witness :
  Forall (fun m => Json.is_dict m = true)
    [Doc.record_a; Doc.null_line_end; Doc.no_line_start] /\
  exists blocks chunks,
    doc_extract_code_blocks
      (JList [Doc.record_a; Doc.null_line_end; Doc.no_line_start])
      Doc.repository
    = (concat chunks, Ok blocks) /\
    len blocks + len chunks
    = len [Doc.record_a; Doc.null_line_end; Doc.no_line_start] /\
    Forall (fun chunk =>
              exists i v e,
                chunk
                = ("Warning: Failed to extract block " +:+ str_int i
                     +:+ " from " +:+ py_str Doc.py_repr v +:+ ": " +:+ str_exn e)
                    :: Doc.print_exc e)
      chunks.
Proof.
  assert (Hd : Forall (fun m => Json.is_dict m = true)
                 [Doc.record_a; Doc.null_line_end; Doc.no_line_start])
    by (repeat constructor).
  split; [exact Hd|].
  exact (json_extract_accounts_for_every_record Sample.digest Doc.encode_error
           Doc.py_repr Doc.validation_error Doc.print_exc _ Doc.repository Hd).
Defined.

Lemma json_failed_records_are_isolated_witness :
  Forall (fun m => Json.is_dict m = true)
    [Doc.record_a; Doc.null_line_end; Doc.record_c] /\
  Json.subscript Doc.repository "path" = Ok (JStr "/repo") /\
  exists blocks,
    snd (doc_extract_code_blocks
           (JList [Doc.record_a; Doc.null_line_end; Doc.record_c])
           Doc.repository)
    = Ok blocks /\
    doc_extract_code_blocks
      (JList (List.filter (conforming Doc.encode_error)
                [Doc.record_a; Doc.null_line_end; Doc.record_c]))
      Doc.repository
    = ([], Ok blocks).
Proof.
  assert (Hd : Forall (fun m => Json.is_dict m = true)
                 [Doc.record_a; Doc.null_line_end; Doc.record_c])
    by (repeat constructor).
  split; [exact Hd|]. split; [reflexivity|].
  exact (json_failed_records_are_isolated Sample.digest Doc.encode_error
           Doc.py_repr Doc.validation_error Doc.print_exc _ Doc.repository
           "/repo" Hd eq_refl).
Defined.

Lemma json_non_object_record_aborts_witness :
  Json.subscript Doc.with_number "repository_info" = Ok Doc.repository /\
  Json.subscript Doc.with_number "pattern_matches"
  = Ok (JList ([Doc.record_a] ++ JInt 5 :: [Doc.record_b])) /\
  Forall (fun m => Json.is_dict m = true) [Doc.record_a] /\
  Json.is_dict (JInt 5) = false /\
  exists chunks,
    doc_extract_code_blocks
      (JList ([Doc.record_a] ++ JInt 5 :: [Doc.record_b])) Doc.repository
    = (concat chunks,
       Raise (Other "AttributeError"
                ("'" +:+ Json.type_name (JInt 5)
                   +:+ "' object has no attribute 'get'"))) /\
    doc_main (Ok Doc.with_number)
    = Run.mk None
        (concat chunks
           ++ ("Error in extraction pipeline: '" +:+ Json.type_name (JInt 5)
                 +:+ "' object has no attribute 'get'")
                :: Doc.print_exc
                     (Other "AttributeError"
                        ("'" +:+ Json.type_name (JInt 5)
                           +:+ "' object has no attribute 'get'")))%list
        1.
Proof.
  assert (Hd : Forall (fun m => Json.is_dict m = true) [Doc.record_a])
    by (repeat constructor).
  split; [reflexivity|]. split; [reflexivity|]. split; [exact Hd|].
  split; [reflexivity|].
  exact (json_non_object_record_aborts Sample.digest Sample.content_hash
           Sample.impact_score Doc.encode_error Doc.py_repr Doc.validation_error
           Doc.print_exc Doc.json_dump Doc.with_number Doc.repository
           [Doc.record_a] (JInt 5) [Doc.record_b] eq_refl eq_refl Hd eq_refl).
Defined.

(** The run on a list of records that holds a number. *)
Example doc_with_number :
  doc_main (Ok Doc.with_number)
  = Run.mk None
      ["Error in extraction pipeline: 'int' object has no attribute 'get'";
       "Traceback (most recent call last):"]
      1.
Proof. vm_compute. reflexivity. Qed.

Lemma json_extract_code_blocks_agrees_witness :
  (forall s, Doc.encode_error s = None) /\
  snd (doc_extract_code_blocks
         (JList (map record_json
                   [Sample.match_a; Sample.reversed_a; Edge.no_file_path]))
         (repository_json Sample.repository))
  = Ok (List.filter (fun b => 1 <=? line_count b)
          (fst (extract_code_blocks Sample.digest
                  [Sample.match_a; Sample.reversed_a; Edge.no_file_path]
                  Sample.repository))).
Proof.
  assert (H : forall s, Doc.encode_error s = None) by reflexivity.
  split; [exact H|].
  exact (json_extract_code_blocks_agrees Sample.digest Doc.encode_error
           Doc.py_repr Doc.validation_error Doc.print_exc _ Sample.repository H).
Defined.

Lemma json_report_facts_witness :
  Run.stdout (doc_main (Ok Doc.scenario)) = Some "{}" /\
  exists blocks report,
    doc_analyse blocks = Ok report /\
    Doc.json_dump report = Ok "{}" /\
    Report.code_blocks report = blocks /\
    Forall (fun b => 1 <= line_count b) blocks /\
    Forall (fun g =>
              similarity_method g = "exact_match" /\
              2 <= occurrence_count g /\
              occurrence_count g <= total_lines g)
      (Report.duplicate_groups report) /\
    ScanMetrics.exact_duplicates (Report.metrics report) = 0 /\
    ScanMetrics.quick_wins (Report.metrics report) = 0 /\
    ScanMetrics.total_code_blocks (Report.metrics report) = len blocks /\
    ScanMetrics.total_duplicate_groups (Report.metrics report)
      = len (Report.duplicate_groups report) /\
    2 * len (Report.duplicate_groups report) <= len blocks.
Proof.
  assert (H : Run.stdout (doc_main (Ok Doc.scenario)) = Some "{}")
    by (vm_compute; reflexivity).
  split; [exact H|].
  exact (json_report_facts Sample.digest Sample.content_hash
           Sample.impact_score Doc.encode_error Doc.py_repr Doc.validation_error
           Doc.print_exc Doc.json_dump _ _ H).
Defined.
